(** * Football API and pattern-sync servers: a shallow embedding

    The development follows [main_server_with_sync_endpoint.py] (the FastAPI
    service: field normalizer, vectorizer, label parser, trainer, predictor
    and the pattern-table endpoints) and [pattern_sync_server.py] (the Flask
    service: the two JSON files and the views that read and write them).

    JSON payloads are Python values ([pyval]).  Python floats are IEEE
    binary64 numbers ([PrimFloat.float]), and the heuristic [_demo_proba] is
    computed with them; the probabilities of a trained estimator, which the
    library returns, and their renormalisation are read over the real
    numbers.  The module-level globals of the FastAPI service are an explicit
    [server_state] that each handler receives and returns. *)

From Stdlib Require Import ZArith NArith List Ascii String Reals Lra Lia.
From Stdlib Require Import PrimFloat FloatOps SpecFloat FloatAxioms.
From stdpp Require Import gmap strings list fin_maps.

Set Warnings "-register-all,-inexact-float".

(* ===================================================================== *)
(** * Python values                                                       *)
(* ===================================================================== *)

(** A Python [str] is a sequence of Unicode code points. *)
Abbreviation pystr := (list N).

(** Code points of a string literal of this file (UTF-8 encoded). *)
Definition cont6 (a : ascii) : N := N.land (N_of_ascii a) 63.

Fixpoint utf8_decode (s : string) : pystr :=
  match s with
  | EmptyString => []
  | String a rest =>
      let b := N_of_ascii a in
      if (b <? 128)%N then b :: utf8_decode rest
      else if (b <? 224)%N then
        match rest with
        | String a1 r1 =>
            N.lor (N.shiftl (N.land b 31) 6) (cont6 a1) :: utf8_decode r1
        | _ => []
        end
      else if (b <? 240)%N then
        match rest with
        | String a1 (String a2 r2) =>
            N.lor (N.shiftl (N.land b 15) 12)
              (N.lor (N.shiftl (cont6 a1) 6) (cont6 a2)) :: utf8_decode r2
        | _ => []
        end
      else
        match rest with
        | String a1 (String a2 (String a3 r3)) =>
            N.lor (N.shiftl (N.land b 7) 18)
              (N.lor (N.shiftl (cont6 a1) 12)
                 (N.lor (N.shiftl (cont6 a2) 6) (cont6 a3))) :: utf8_decode r3
        | _ => []
        end
  end.

Notation "'u' s" := (utf8_decode s%string) (at level 1, s at level 0, only parsing).

(** A JSON object keeps the insertion order of its entries
    ([list(d.items())[:3]] is observable in the sync endpoints), so a dict is
    an ordered association list; keys of a parsed object are distinct and a
    lookup returns the binding found first. *)
Inductive pyval : Type :=
| PNone
| PBool (b : bool)
| PInt (z : Z)
| PFloat (f : float)
| PStr (s : pystr)
| PList (l : list pyval)
| PDict (d : list (pystr * pyval)).

Abbreviation pydict := (list (pystr * pyval)).

(** [key in d] and [d[key]] / [d.get(key)]. *)
Fixpoint dict_get (k : pystr) (d : pydict) : option pyval :=
  match d with
  | [] => None
  | (k', v) :: d' => if decide (k' = k) then Some v else dict_get k d'
  end.

Definition dict_contains (k : pystr) (d : pydict) : bool :=
  match dict_get k d with Some _ => true | None => false end.

(** [d.get(key)]: a missing key reads as [None]. *)
Definition dict_get_default (k : pystr) (d : pydict) : pyval :=
  match dict_get k d with Some v => v | None => PNone end.

Definition is_none (v : pyval) : bool :=
  match v with PNone => true | _ => false end.

(* ===================================================================== *)
(** * Python built-ins used by the services                               *)
(* ===================================================================== *)

(** The parts of the runtime that are tables or parsers of CPython itself:
    the Unicode case tables behind [str.lower()] and the numeric-literal
    parsers behind [float(str)] and [int(str)]. *)
Class PyRuntime := {
  unicode_lower : pystr -> pystr;
  float_of_str : pystr -> option float;
  int_of_str : pystr -> option Z
}.

(** ** [str.strip()] and [str.lower()] *)

(** [str.isspace()] on one code point. *)
Definition is_space (c : N) : bool :=
  ((9 <=? c) && (c <=? 13) || (28 <=? c) && (c <=? 32)
   || (c =? 133) || (c =? 160) || (c =? 5760)
   || (8192 <=? c) && (c <=? 8202)
   || (c =? 8232) || (c =? 8233) || (c =? 8239) || (c =? 8287)
   || (c =? 12288))%N.

Fixpoint lstrip (s : pystr) : pystr :=
  match s with
  | c :: s' => if is_space c then lstrip s' else s
  | [] => []
  end.

Definition rstrip (s : pystr) : pystr := rev (lstrip (rev s)).

Definition str_strip (s : pystr) : pystr := rstrip (lstrip s).

Definition ascii_lower (c : N) : N :=
  if ((65 <=? c) && (c <=? 90))%N then (c + 32)%N else c.

(** Code points below 128, and the Hangul syllables block (U+AC00..U+D7A3),
    which has no case. *)
Definition ascii_or_hangul (c : N) : bool :=
  ((c <? 128) || (44032 <=? c) && (c <=? 55203))%N.

(** [str.lower()]: letters A-Z fold to a-z; a string with any other cased
    script goes through the Unicode tables of the runtime. *)
Definition str_lower `{PyRuntime} (s : pystr) : pystr :=
  if forallb ascii_or_hangul s then map ascii_lower s else unicode_lower s.

(** ** [float(v)] *)

(** [float(int)]: round to nearest even; [OverflowError] when the integer is
    out of the binary64 range. *)
Definition float_of_int (z : Z) : option float :=
  let f := SF2Prim (binary_normalize prec emax z 0 false) in
  if is_infinity f then None else Some f.

(** [float(v)]; [None] stands for the raised [TypeError], [ValueError] or
    [OverflowError]. *)
Definition py_float `{PyRuntime} (v : pyval) : option float :=
  match v with
  | PNone => None
  | PBool b => Some (if b then 1%float else 0%float)
  | PInt z => float_of_int z
  | PFloat f => Some f
  | PStr s => float_of_str s
  | PList _ => None
  | PDict _ => None
  end.

(** ** [int(v)] *)

(** [int(float)]: truncation toward zero; [ValueError] on NaN,
    [OverflowError] on an infinity. *)
Definition int_of_float (f : float) : option Z :=
  match Prim2SF f with
  | S754_zero _ => Some 0%Z
  | S754_infinity _ => None
  | S754_nan => None
  | S754_finite s m e =>
      let a := if (0 <=? e)%Z then (Z.pos m * 2 ^ e)%Z
               else (Z.pos m / 2 ^ (- e))%Z in
      Some (if s then (- a)%Z else a)
  end.

(** [int(v)]; [None] stands for the raised exception. *)
Definition py_int `{PyRuntime} (v : pyval) : option Z :=
  match v with
  | PNone => None
  | PBool b => Some (if b then 1%Z else 0%Z)
  | PInt z => Some z
  | PFloat f => int_of_float f
  | PStr s => int_of_str s
  | PList _ => None
  | PDict _ => None
  end.

(* ===================================================================== *)
(** * The FastAPI service: constants                                      *)
(* ===================================================================== *)

Definition FEATURE_KEYS : list pystr :=
  [u"eloDiff"; u"ppgDiff"; u"homeOsl"; u"drawOsl"; u"awayOsl";
   u"poissonHomeProb"; u"avgDrawPercent"; u"upsetScoreDiff";
   u"xgHomeFor"; u"xgAwayFor"; u"xgHomeAgainst"; u"xgAwayAgainst"].

Definition FIELD_MAPPING : gmap string (list pystr) :=
  list_to_map
    [("label"%string,
      [u"finalResult"; u"finalPrediction"; u"label"; u"finalPredClean";
       u"prediction"; u"result"; u"outcome"]);
     ("features"%string,
      [u"features"; u"feature_dict"; u"feature"; u"featureDict"; u"data"]);
     ("warningRules"%string,
      [u"warningRules"; u"warning_rules"; u"patterns"; u"pattern_rules";
       u"missPatterns"]);
     ("successRules"%string,
      [u"successRules"; u"success_rules"; u"success"; u"successPatterns"])].

(** The three outcomes, the keys of every probability dict ([ALL_KEYS]). *)
Inductive outcome_key : Type := home | draw | away.

Definition ALL_KEYS : list outcome_key := [home; draw; away].

Definition CLASS_TO_KEY (c : Z) : option outcome_key :=
  if (c =? 0)%Z then Some home
  else if (c =? 1)%Z then Some draw
  else if (c =? 2)%Z then Some away
  else None.

Definition KEY_TO_CLASS (k : outcome_key) : Z :=
  match k with home => 0 | draw => 1 | away => 2 end.

(* ===================================================================== *)
(** * Vectorizer and field normalizer                                     *)
(* ===================================================================== *)

(** [_safe_num(v, default)]: [float(v)], with [default] on any exception and
    on NaN (the only float for which [x == x] is false). *)
Definition _safe_num `{PyRuntime} (v : pyval) (default : float) : float :=
  match py_float v with
  | Some x => if PrimFloat.eqb x x then x else default
  | None => default
  end.

Definition _vec_from_features `{PyRuntime} (feat : pydict) : list float :=
  map (fun k => _safe_num (dict_get_default k feat) 0%float) FEATURE_KEYS.

(** [normalize_field(data, field_name, allowed_keys)]; [field_name] is only
    used for logging and is left out.  [PNone] is Python's [None]. *)
Fixpoint normalize_field (data : pydict) (allowed_keys : list pystr) : pyval :=
  match allowed_keys with
  | [] => PNone
  | key :: rest =>
      match dict_get key data with
      | Some value =>
          if is_none value then normalize_field data rest else value
      | None => normalize_field data rest
      end
  end.

(* ===================================================================== *)
(** * Predictor                                                           *)
(* ===================================================================== *)

(** A probability dict over [ALL_KEYS]. *)
Record proba : Type := { p_home : R; p_draw : R; p_away : R }.

Definition proba_get (p : proba) (k : outcome_key) : R :=
  match k with home => p_home p | draw => p_draw p | away => p_away p end.

Definition proba_set (p : proba) (k : outcome_key) (x : R) : proba :=
  match k with
  | home => {| p_home := x; p_draw := p_draw p; p_away := p_away p |}
  | draw => {| p_home := p_home p; p_draw := x; p_away := p_away p |}
  | away => {| p_home := p_home p; p_draw := p_draw p; p_away := x |}
  end.

(** [sum(p.values())]. *)
Definition proba_sum (p : proba) : R := (0 + p_home p + p_draw p + p_away p)%R.

(** ** The heuristic, in binary64 *)

(** The exceptions that the prediction path can raise. *)
Inductive py_exception : Type :=
| ValueError
| OverflowError
| ZeroDivisionError
| AttributeError.

Inductive raised (A : Type) : Type :=
| Returns (a : A)
| Raises (e : py_exception).
Arguments Returns {A} a.
Arguments Raises {A} e.

(** The exponential of the C library, for the arguments on which the range
    of binary64 does not force its result. *)
Class MathLib := { libm_exp : float -> float }.

(** [math.exp(x)].  NaN and the infinities are passed through as IEEE 754
    prescribes; from 710 on the exponential exceeds the largest binary64
    number and Python raises [OverflowError]; at -746 and below it rounds to
    zero, which Python returns; in between the value is the library's, with
    Python's checks on it. *)
Definition math_exp `{MathLib} (x : float) : raised float :=
  if PrimFloat.is_nan x then Returns nan
  else if PrimFloat.eqb x infinity then Returns infinity
  else if PrimFloat.eqb x neg_infinity then Returns 0%float
  else if PrimFloat.leb 710 x then Raises OverflowError
  else if PrimFloat.leb x (-746) then Returns 0%float
  else
    let r := libm_exp x in
    if PrimFloat.is_nan r then Raises ValueError
    else if PrimFloat.is_infinity r then Raises OverflowError
    else Returns r.

(** A probability dict over [ALL_KEYS] with float values. *)
Record float_proba : Type := { f_home : float; f_draw : float; f_away : float }.

Definition float_proba_get (p : float_proba) (k : outcome_key) : float :=
  match k with home => f_home p | draw => f_draw p | away => f_away p end.

(** [_demo_proba(vec)].  Unpacking a vector whose length is not 12 raises
    [ValueError]; the three calls of [math.exp] are made in order, and a
    float division by zero raises [ZeroDivisionError]. *)
Definition _demo_proba `{MathLib} (vec : list float) : raised float_proba :=
  match vec with
  | [eloDiff; ppgDiff; homeOsl; drawOsl; awayOsl; poissonHomeProb;
     avgDrawPercent; upsetScoreDiff; xgHF; xgAF; xgHA; xgAA] =>
      let sh := (0.40 * poissonHomeProb + 0.20 * (eloDiff / 100.0)
                 + 0.10 * ppgDiff + 0.15 * homeOsl - 0.10 * (xgHA - xgHF))%float in
      let sd := (0.30 * (avgDrawPercent / 100.0) + 0.20 * drawOsl
                 + 0.10 * (1 - PrimFloat.abs ppgDiff))%float in
      let sa := (0.35 * (1 - poissonHomeProb) + 0.20 * (- eloDiff / 100.0)
                 + 0.10 * (- ppgDiff) + 0.15 * awayOsl)%float in
      match math_exp sh with
      | Raises e => Raises e
      | Returns eh =>
          match math_exp sd with
          | Raises e => Raises e
          | Returns ed =>
              match math_exp sa with
              | Raises e => Raises e
              | Returns ea =>
                  let s := (eh + ed + ea)%float in
                  if PrimFloat.eqb s 0 then Raises ZeroDivisionError
                  else Returns {| f_home := (eh / s)%float;
                                  f_draw := (ed / s)%float;
                                  f_away := (ea / s)%float |}
              end
          end
      end
  | _ => Raises ValueError
  end.

(** ** The model-backed path *)

(** What the predictor uses of a trained estimator: [predict_proba] on one
    row, and the two places where the class list may be found. *)
Record sk_model : Type := {
  predict_proba_row : list R -> list R;
  classes_ : option (list Z);
  base_estimator_classes_ : option (list Z)
}.

Definition model_classes (model : sk_model) (probs : list R) : list Z :=
  match classes_ model with
  | Some cs => cs
  | None =>
      match base_estimator_classes_ model with
      | Some cs => cs
      | None =>
          if (length probs =? 2)%nat then [0%Z; 1%Z]
          else map Z.of_nat (seq 0 (length probs))
      end
  end.

(** The loop [for cls, p in zip(classes, probs)]. *)
Fixpoint assign_probs (classes : list Z) (probs : list R) (out : proba) : proba :=
  match classes, probs with
  | cls :: classes', p :: probs' =>
      match CLASS_TO_KEY cls with
      | Some key => assign_probs classes' probs' (proba_set out key p)
      | None => assign_probs classes' probs' out
      end
  | _, _ => out
  end.

Definition proba_zero : proba := {| p_home := 0; p_draw := 0; p_away := 0 |}.

Definition _extract_proba_from_model (model : sk_model) (vec : list R) : proba :=
  let probs := predict_proba_row model vec in
  let classes := model_classes model probs in
  let out := assign_probs classes probs proba_zero in
  let s := proba_sum out in
  if Rlt_dec 0 s
  then {| p_home := (p_home out / s)%R; p_draw := (p_draw out / s)%R;
          p_away := (p_away out / s)%R |}
  else {| p_home := (1.0 / 3.0)%R; p_draw := (1.0 / 3.0)%R;
          p_away := (1.0 / 3.0)%R |}.

(* ===================================================================== *)
(** * Label parser                                                        *)
(* ===================================================================== *)

Definition HOME_LABELS : list pystr := [u"home"; u"h"; u"home win"; u"홈 승"; u"1"].
Definition DRAW_LABELS : list pystr := [u"draw"; u"d"; u"무승부"; u"x"; u"0"].
Definition AWAY_LABELS : list pystr := [u"away"; u"a"; u"away win"; u"원정 승"; u"2"].

(** [lab in (...)] on a tuple of strings. *)
Definition str_in (s : pystr) (t : list pystr) : bool := bool_decide (s ∈ t).

(** The label branch of the row loop of [retrain_automated]: the class index,
    or the key of the rejection counter to increment. *)
Definition parse_label `{PyRuntime} (lab : pyval) : Z + string :=
  match lab with
  | PStr s =>
      let lab := str_lower (str_strip s) in
      if str_in lab HOME_LABELS then inl 0%Z
      else if str_in lab DRAW_LABELS then inl 1%Z
      else if str_in lab AWAY_LABELS then inl 2%Z
      else inr "invalid_label"%string
  | _ =>
      match py_int lab with
      | Some y =>
          if bool_decide (y ∈ [0%Z; 1%Z; 2%Z]) then inl y
          else inr "label_out_of_range"%string
      | None => inr "invalid_label_type"%string
      end
  end.

(* ===================================================================== *)
(** * Trainer                                                             *)
(* ===================================================================== *)

(** The estimator that is fitted: the scaler + logistic-regression pipeline,
    alone or inside [CalibratedClassifierCV(method="sigmoid", cv=...)]. *)
Inductive train_plan : Type :=
| Calibrated (cv : Z)
| PlainLogreg.

(** [clf.fit(X, y)] of scikit-learn; [None] when it raises. *)
Class Sklearn := {
  fit : train_plan -> list (list float) -> list Z -> option sk_model
}.

Definition mode_name (plan : train_plan) : pystr :=
  match plan with
  | Calibrated _ => u"calibrated"
  | PlainLogreg => u"plain-logreg"
  end.

(** The module-level globals. *)
Record server_state : Type := {
  _sklearn_loaded : bool;
  _model : option sk_model;
  _model_version : pystr;
  _patterns_db : pydict;
  _success_db : pydict
}.

Definition initial_state : server_state :=
  {| _sklearn_loaded := false; _model := None; _model_version := u"demo-1.0";
     _patterns_db := []; _success_db := [] |}.

Definition _ensure_sklearn (st : server_state) : server_state :=
  {| _sklearn_loaded := true; _model := _model st;
     _model_version := _model_version st;
     _patterns_db := _patterns_db st; _success_db := _success_db st |}.

Definition set_model (st : server_state) (clf : sk_model) (version : pystr) : server_state :=
  {| _sklearn_loaded := _sklearn_loaded st; _model := Some clf;
     _model_version := version;
     _patterns_db := _patterns_db st; _success_db := _success_db st |}.

(** [d[k] = d.get(k, 0) + 1]. *)
Definition bump {K} `{Countable K} (k : K) (d : gmap K nat) : gmap K nat :=
  <[k := default 0 (d !! k) + 1]> d.

(** The locals of the row loop. *)
Record loop_acc : Type := {
  X_list : list (list float);
  y_list : list Z;
  valid_count : nat;
  invalid_reason_counts : gmap string nat
}.

Definition acc_empty : loop_acc :=
  {| X_list := []; y_list := []; valid_count := 0; invalid_reason_counts := ∅ |}.

Definition reject (reason : string) (acc : loop_acc) : loop_acc :=
  {| X_list := X_list acc; y_list := y_list acc; valid_count := valid_count acc;
     invalid_reason_counts := bump reason (invalid_reason_counts acc) |}.

Definition accept (vec : list float) (y : Z) (acc : loop_acc) : loop_acc :=
  {| X_list := X_list acc ++ [vec]; y_list := y_list acc ++ [y];
     valid_count := valid_count acc + 1;
     invalid_reason_counts := invalid_reason_counts acc |}.

(** One iteration of [for row_idx, row in enumerate(training_data)]. *)
Definition loop_body `{PyRuntime} (acc : loop_acc) (row : pyval) : loop_acc :=
  match row with
  | PDict d =>
      let feat := normalize_field d (FIELD_MAPPING !!! "features"%string) in
      let lab := normalize_field d (FIELD_MAPPING !!! "label"%string) in
      match feat with
      | PDict f =>
          let vec := _vec_from_features f in
          match parse_label lab with
          | inl y => accept vec y acc
          | inr reason => reject reason acc
          end
      | _ => reject "no_features" acc
      end
  | _ => reject "not_dict" acc
  end.

(** [Counter(int(v) for v in y.tolist())]. *)
Definition Counter (ys : list Z) : gmap Z nat :=
  fold_left (fun counts v => bump v counts) ys ∅.

(** [min(...)] of a list; [None] is the [ValueError] on an empty one. *)
Definition py_min (l : list nat) : option nat :=
  match l with
  | [] => None
  | x :: l' => Some (fold_left Nat.min l' x)
  end.

(** [counts.values()]. *)
Definition counter_values (counts : gmap Z nat) : list nat :=
  (map_to_list counts).*2.

(** Lines 420-432: calibration only when the rarest class present has two
    samples and the batch has six. *)
Definition choose_plan (min_class_count n : nat) : train_plan :=
  let use_calib := ((2 <=? min_class_count) && (6 <=? n))%nat in
  if use_calib
  then Calibrated (if (min_class_count =? 2)%nat then 2%Z else 3%Z)
  else PlainLogreg.

Inductive error_detail : Type :=
| TrainingDataMustBeArray
| NoValidSamples (invalid_reasons : gmap string nat)
| Need2Classes
| MissingRules
| RulesMustBeDict
| UnhandledException.

Inductive http_result (A : Type) : Type :=
| Ok (body : A)
| HTTPError (status_code : Z) (detail : error_detail).
Arguments Ok {A} body.
Arguments HTTPError {A} status_code detail.

Record retrain_summary : Type := {
  rs_received : nat;
  rs_valid : nat;
  rs_invalid : Z;
  rs_invalid_reasons : gmap string nat;
  rs_class_counts : gmap Z nat;
  rs_new_model_version : pystr;
  rs_saved : bool;
  rs_mode : pystr
}.

(** [POST /retrain-automated].  [now] is [_timestamp_str()] and [saved] tells
    whether [_save_model] returned without raising; the files under
    [models/] are not part of the state.  An exception that no handler
    catches is the framework's status 500. *)
Definition retrain_automated `{PyRuntime} `{Sklearn}
    (now : pystr) (saved : bool)
    (st : server_state) (training_data : pyval)
  : http_result retrain_summary * server_state :=
  match training_data with
  | PList rows =>
      let st := _ensure_sklearn st in
      let acc := fold_left loop_body rows acc_empty in
      match X_list acc with
      | [] => (HTTPError 400 (NoValidSamples (invalid_reason_counts acc)), st)
      | _ :: _ =>
          let counts := Counter (y_list acc) in
          if (size counts <? 2)%nat then (HTTPError 400 Need2Classes, st)
          else
            match py_min (counter_values counts) with
            | None => (HTTPError 500 UnhandledException, st)
            | Some min_class_count =>
                let plan := choose_plan min_class_count (length (y_list acc)) in
                match fit plan (X_list acc) (y_list acc) with
                | None => (HTTPError 500 UnhandledException, st)
                | Some clf =>
                    let version := u"sklr-" ++ mode_name plan ++ u"-" ++ now in
                    (Ok {| rs_received := length (X_list acc);
                           rs_valid := valid_count acc;
                           rs_invalid := (Z.of_nat (length rows) - Z.of_nat (valid_count acc))%Z;
                           rs_invalid_reasons := invalid_reason_counts acc;
                           rs_class_counts := counts;
                           rs_new_model_version := version;
                           rs_saved := saved;
                           rs_mode := mode_name plan |},
                     set_model st clf version)
                end
            end
      end
  | _ => (HTTPError 400 TrainingDataMustBeArray, st)
  end.

Record echo_response : Type := {
  echo_ok : bool;
  echo_received : nat;
  echo_ts : pystr
}.

(** [POST /retrain-models]. *)
Definition retrain_models (now : pystr) (st : server_state) (payload : pyval)
  : echo_response * server_state :=
  let n := match payload with PList l => length l | _ => 1 end in
  ({| echo_ok := true; echo_received := n; echo_ts := now |}, st).

(* ===================================================================== *)
(** * Pattern-table endpoints                                             *)
(* ===================================================================== *)

Record sync_response : Type := {
  sync_ok : bool;
  sync_warning : option pystr;
  stored_patterns : nat;
  sync_timestamp : option pystr
}.

(** Whether [f"{v:.1%}"] formats [v]: numbers only, and an integer must fit
    a float. *)
Definition percent_formattable (v : pyval) : bool :=
  match v with
  | PBool _ => true
  | PInt z => match float_of_int z with Some _ => true | None => false end
  | PFloat _ => true
  | _ => false
  end.

(** Whether the log line of one of the first three entries can be built:
    [pattern_data.get(rate_key, 0)] needs a dict, and the rate is printed
    with [:.1%].  Where this is [false] the line raises.  The standard output
    is taken to accept the line once it is built: a name or a total that the
    output's encoding rejects is not covered. *)
Definition log_line_ok (rate_key : pystr) (entry : pystr * pyval) : bool :=
  match entry.2 with
  | PDict pattern_data =>
      percent_formattable (default (PInt 0) (dict_get rate_key pattern_data))
  | _ => false
  end.

Definition set_patterns_db (st : server_state) (rules : pydict) : server_state :=
  {| _sklearn_loaded := _sklearn_loaded st; _model := _model st;
     _model_version := _model_version st;
     _patterns_db := rules; _success_db := _success_db st |}.

Definition set_success_db (st : server_state) (rules : pydict) : server_state :=
  {| _sklearn_loaded := _sklearn_loaded st; _model := _model st;
     _model_version := _model_version st;
     _patterns_db := _patterns_db st; _success_db := rules |}.

(** [POST /sync-patterns-db]. *)
Definition sync_patterns_db (now : pystr) (st : server_state) (data : pydict)
  : http_result sync_response * server_state :=
  match normalize_field data (FIELD_MAPPING !!! "warningRules"%string) with
  | PNone => (HTTPError 400 MissingRules, st)
  | PDict warning_rules =>
      if (length warning_rules =? 0)%nat then
        (Ok {| sync_ok := true; sync_warning := Some (u"Empty warningRules");
               stored_patterns := 0; sync_timestamp := None |}, st)
      else
        let st := set_patterns_db st warning_rules in
        if forallb (log_line_ok (u"missRate")) (take 3 warning_rules) then
          (Ok {| sync_ok := true; sync_warning := None;
                 stored_patterns := length (_patterns_db st);
                 sync_timestamp := Some now |}, st)
        else (HTTPError 500 UnhandledException, st)
  | _ => (HTTPError 400 RulesMustBeDict, st)
  end.

(** [POST /sync-success-db]. *)
Definition sync_success_db (now : pystr) (st : server_state) (data : pydict)
  : http_result sync_response * server_state :=
  match normalize_field data (FIELD_MAPPING !!! "successRules"%string) with
  | PNone => (HTTPError 400 MissingRules, st)
  | PDict success_rules =>
      if (length success_rules =? 0)%nat then
        (Ok {| sync_ok := true; sync_warning := Some (u"Empty successRules");
               stored_patterns := 0; sync_timestamp := None |}, st)
      else
        let st := set_success_db st success_rules in
        if forallb (log_line_ok (u"successRate")) (take 3 success_rules) then
          (Ok {| sync_ok := true; sync_warning := None;
                 stored_patterns := length (_success_db st);
                 sync_timestamp := Some now |}, st)
        else (HTTPError 500 UnhandledException, st)
  | _ => (HTTPError 400 RulesMustBeDict, st)
  end.

(* ===================================================================== *)
(** * The Flask service: [get_pattern]                                    *)
(* ===================================================================== *)

Module PatternSync.

Definition pattern (name status rate_key : string) (rate : float) (count : Z) : pyval :=
  PDict [(utf8_decode "name", PStr (utf8_decode name));
         (utf8_decode "status", PStr (utf8_decode status));
         (utf8_decode rate_key, PFloat rate);
         (utf8_decode "count", PInt count)].

Definition INITIAL_DATA_patterns : pyval :=
  PList
    [pattern "상승 추세 패턴" "miss" "miss_rate" 65.5 120;
     pattern "하강 추세 패턴" "miss" "miss_rate" 42.3 95;
     pattern "W자 패턴" "miss" "miss_rate" 58.8 76;
     pattern "헤드앤숄더 패턴" "miss" "miss_rate" 72.1 50;
     pattern "삼각형 패턴" "miss" "miss_rate" 38.9 110;
     pattern "황금 비율 회귀" "success" "success_rate" 78.5 200;
     pattern "볼린저 밴드 돌파" "success" "success_rate" 82.3 175;
     pattern "RSI 과매도/과매수" "success" "success_rate" 71.2 150;
     pattern "MACD 교차" "success" "success_rate" 65.8 128;
     pattern "이동평균선 교차" "success" "success_rate" 88.4 220].

(** [load_patterns()]: the parsed content of [patterns.json] when the file
    exists, the initial patterns otherwise. *)
Definition load_patterns (patterns_file : option pyval) : pyval :=
  match patterns_file with
  | Some content => content
  | None => INITIAL_DATA_patterns
  end.

(** [len(v)]; [None] is the [TypeError] of a value without length. *)
Definition py_len (v : pyval) : option nat :=
  match v with
  | PList l => Some (length l)
  | PStr s => Some (length s)
  | PDict d => Some (length d)
  | _ => None
  end.

(** [l[i]] on a sequence: a negative index counts from the end, and an
    index outside [-len, len) raises [IndexError] ([None]). *)
Definition seq_index {A} (l : list A) (i : Z) : option A :=
  let n := Z.of_nat (length l) in
  if (i <? 0)%Z then
    if (0 <=? i + n)%Z then l !! Z.to_nat (i + n) else None
  else l !! Z.to_nat i.

(** [v[i]] with an integer [i]; a dict loaded from JSON has string keys
    only, so the subscript raises [KeyError]. *)
Definition py_getitem (v : pyval) (i : Z) : option pyval :=
  match v with
  | PList l => seq_index l i
  | PStr s => (fun c => PStr [c]) <$> seq_index s i
  | _ => None
  end.

Inductive pattern_response : Type :=
| PatternFound (pattern : pyval)
| PatternNotFound
| PatternError.

Definition status_of (r : pattern_response) : Z :=
  match r with
  | PatternFound _ => 200
  | PatternNotFound => 404
  | PatternError => 500
  end.

(** [GET /api/patterns/<pattern_id>]: every exception of the body ends in
    the [except] branch. *)
Definition get_pattern `{PyRuntime} (patterns_file : option pyval) (pattern_id : pystr)
  : pattern_response :=
  let patterns := load_patterns patterns_file in
  match int_of_str pattern_id, py_len patterns with
  | Some i, Some n =>
      if (i <? Z.of_nat n)%Z then
        match py_getitem patterns i with
        | Some p => PatternFound p
        | None => PatternError
        end
      else PatternNotFound
  | _, _ => PatternError
  end.

End PatternSync.

(* ===================================================================== *)
(** * A runtime for closed examples                                       *)
(* ===================================================================== *)

(** The decimal fragment of [int(str)]: an optional sign and ASCII digits. *)
Fixpoint decimal_digits (s : pystr) (acc : Z) : option Z :=
  match s with
  | [] => Some acc
  | c :: s' =>
      if ((48 <=? c) && (c <=? 57))%N
      then decimal_digits s' (10 * acc + Z.of_N (c - 48))%Z
      else None
  end.

Definition decimal_int (s : pystr) : option Z :=
  match s with
  | [] => None
  | c :: s' =>
      if (c =? 45)%N then
        match s' with [] => None | _ => Z.opp <$> decimal_digits s' 0 end
      else if (c =? 43)%N then
        match s' with [] => None | _ => decimal_digits s' 0 end
      else decimal_digits s 0
  end.

(** Closed examples run with this runtime: it reads signed decimal
    integers, and is not asked about any other numeric literal or about
    cased scripts outside ASCII. *)
Definition example_runtime : PyRuntime :=
  {| unicode_lower := fun s => s;
     float_of_str := fun s => decimal_int s ≫= float_of_int;
     int_of_str := decimal_int |}.

(** A model with fixed probabilities, and a [fit] that returns it. *)
Definition example_model : sk_model :=
  {| predict_proba_row := fun _ => [0.5; 0.25; 0.25]%R;
     classes_ := Some [0; 1; 2]%Z;
     base_estimator_classes_ := None |}.

Definition example_sklearn : Sklearn :=
  {| fit := fun _ _ _ => Some example_model |}.

(** A stored table and a state that holds it, for closed examples. *)
Definition stored_table : pydict :=
  [(u"late-goal", PDict [(u"total", PInt 4); (u"missRate", PFloat 0.5)])].

Definition state_with_table : server_state :=
  set_patterns_db (set_success_db initial_state stored_table) stored_table.

(* ===================================================================== *)
(** * Vocabulary of the specification                                     *)
(* ===================================================================== *)

(** A candidate key that the normalizer passes over. *)
Definition absent_or_null (data : pydict) (k : pystr) : Prop :=
  dict_get k data = None \/ dict_get k data = Some PNone.

(** A float is NaN when its IEEE decoding is. *)
Definition is_NaN (x : float) : Prop := Prim2SF x = S754_nan.

(** The entry of the vector for feature name [k], in the spec's words:
    [0.0] when [k] is missing, when its value has no numeric coercion, and
    when the coercion is NaN; the coercion otherwise. *)
Inductive entry_for `{PyRuntime} (feat : pydict) (k : pystr) : float -> Prop :=
| entry_missing :
    dict_get k feat = None -> entry_for feat k 0%float
| entry_not_numeric v :
    dict_get k feat = Some v -> py_float v = None -> entry_for feat k 0%float
| entry_nan v x :
    dict_get k feat = Some v -> py_float v = Some x -> is_NaN x ->
    entry_for feat k 0%float
| entry_number v x :
    dict_get k feat = Some v -> py_float v = Some x -> ~ is_NaN x ->
    entry_for feat k x.


(** How many of the valid labels [ys] are class [c]. *)
Definition occurrences (c : Z) (ys : list Z) : nat := count_occ Z.eq_dec ys c.

(** [m] is the number of samples of the rarest class present in [ys]. *)
Definition minority_count (ys : list Z) (m : nat) : Prop :=
  (exists c, c ∈ ys /\ occurrences c ys = m)
  /\ (forall c, c ∈ ys -> m <= occurrences c ys).

(** [sum(invalid_reason_counts.values())]. *)
Definition histogram_total (h : gmap string nat) : nat :=
  map_fold (fun _ n s => n + s) 0 h.

(** The synonym table of the label parser, as (token, class index). *)
Definition LABEL_SYNONYMS : list (pystr * Z) :=
  [(u"home", 0); (u"h", 0); (u"home win", 0); (u"홈 승", 0); (u"1", 0);
   (u"draw", 1); (u"d", 1); (u"무승부", 1); (u"x", 1); (u"0", 1);
   (u"away", 2); (u"a", 2); (u"away win", 2); (u"원정 승", 2); (u"2", 2)]%Z.

(** What the row loop maintains after [n] rows: the training set and the
    valid counter grow together, and every row is either in the training
    set or under exactly one rejection counter. *)
Definition loop_invariant (n : nat) (acc : loop_acc) : Prop :=
  length (X_list acc) = valid_count acc
  /\ length (y_list acc) = valid_count acc
  /\ valid_count acc + histogram_total (invalid_reason_counts acc) = n.

(** The version tag of a retrain under [plan] at time [now]. *)
Definition version_tag (plan : train_plan) (now : pystr) : pystr :=
  u"sklr-" ++ mode_name plan ++ u"-" ++ now.

(** A training row with an empty feature dict and the given label, and a
    batch of two home rows and four draw rows, for closed examples. *)
Definition example_row (lab : pyval) : pyval :=
  PDict [(u"features", PDict []); (u"label", lab)].

Definition example_batch : list pyval :=
  [example_row (PStr (u"Home Win")); example_row (PInt 0);
   example_row (PStr (u"무승부")); example_row (PInt 1);
   example_row (PStr (u"x")); example_row (PStr (u" DRAW "))].

(* ===================================================================== *)
(** * The FastAPI service: prediction answer and read-only endpoints      *)
(* ===================================================================== *)

(** Truth value of a Python object ([not v], [v or w]). *)
Definition py_truthy (v : pyval) : bool :=
  match v with
  | PNone => false
  | PBool b => b
  | PInt z => negb (z =? 0)%Z
  | PFloat f => negb (PrimFloat.eqb f 0%float)
  | PStr s => negb (length s =? 0)%nat
  | PList l => negb (length l =? 0)%nat
  | PDict d => negb (length d =? 0)%nat
  end.

(** What [predict_proba] does before it computes probabilities. *)
Inductive vec_result : Type :=
| VecOk (vec : list float)
| VecInvalidPayload
| VecUnhandled.

(** Lines 313-317 of [predict_proba]: the payload must be a dict
    (status 400 otherwise); [payload.get("features") or {}] replaces a
    missing or falsy value by the empty dict, and a truthy value that is not
    a dict has no [get] (an exception that nothing catches). *)
Definition predict_vec `{PyRuntime} (payload : pyval) : vec_result :=
  match payload with
  | PDict p =>
      let features := dict_get_default (u"features") p in
      if py_truthy features then
        match features with
        | PDict f => VecOk (_vec_from_features f)
        | _ => VecUnhandled
        end
      else VecOk (_vec_from_features [])
  | _ => VecInvalidPayload
  end.

(** [max(proba, key=proba.get)]: the keys are visited in the order home,
    draw, away, and a later key wins only when its value is greater. *)
Definition max_key (p : float_proba) : outcome_key :=
  let best := home in
  let best := if PrimFloat.ltb (float_proba_get p best) (float_proba_get p draw)
              then draw else best in
  if PrimFloat.ltb (float_proba_get p best) (float_proba_get p away)
  then away else best.

Definition label_map (k : outcome_key) : pystr :=
  match k with home => u"Home" | draw => u"Draw" | away => u"Away" end.

Record predict_response : Type := {
  pr_proba : float_proba;
  pr_predicted_winner : outcome_key;
  pr_predicted_winner_label : pystr;
  pr_predicted_winner_prob : float;
  pr_model_version : pystr;
  pr_ts : pystr
}.

Inductive predict_outcome : Type :=
| PredictAnswer (answer : predict_response)
| PredictInvalidPayload
| PredictRaises (e : py_exception).

(** [POST /predict-proba] while no model is loaded ([_model is None], as
    before the first retrain): the dict that the handler returns, the
    status 400 of a payload that is not a dict, or the exception that
    escapes the handler. *)
Definition predict_proba_without_model `{PyRuntime} `{MathLib}
    (now : pystr) (st : server_state) (payload : pyval) : predict_outcome :=
  match predict_vec payload with
  | VecInvalidPayload => PredictInvalidPayload
  | VecUnhandled => PredictRaises AttributeError
  | VecOk vec =>
      match _demo_proba vec with
      | Raises e => PredictRaises e
      | Returns proba =>
          let winner_key := max_key proba in
          PredictAnswer
            {| pr_proba := proba;
               pr_predicted_winner := winner_key;
               pr_predicted_winner_label := label_map winner_key;
               pr_predicted_winner_prob := float_proba_get proba winner_key;
               pr_model_version := _model_version st;
               pr_ts := now |}
      end
  end.

Record status_response : Type := {
  ss_model_loaded : bool;
  ss_model_version : pystr;
  ss_patterns_count : nat;
  ss_success_count : nat;
  ss_ts : pystr
}.

(** [GET /scheduler/status]. *)
Definition scheduler_status (now : pystr) (st : server_state) : status_response :=
  {| ss_model_loaded := match _model st with Some _ => true | None => false end;
     ss_model_version := _model_version st;
     ss_patterns_count := length (_patterns_db st);
     ss_success_count := length (_success_db st);
     ss_ts := now |}.

Record fetch_response : Type := {
  fr_warningRules : pydict;
  fr_successRules : pydict;
  fr_patterns_count : nat;
  fr_success_count : nat;
  fr_model_version : pystr;
  fr_ts : pystr
}.

(** [GET /fetch-patterns-db]. *)
Definition fetch_patterns_db (now : pystr) (st : server_state) : fetch_response :=
  {| fr_warningRules := _patterns_db st;
     fr_successRules := _success_db st;
     fr_patterns_count := length (_patterns_db st);
     fr_success_count := length (_success_db st);
     fr_model_version := _model_version st;
     fr_ts := now |}.

(** The status code of an answer of the FastAPI service. *)
Definition status_code_of {A} (r : http_result A) : Z :=
  match r with
  | Ok _ => 200
  | HTTPError code _ => code
  end.

(* ===================================================================== *)
(** * The Flask service: the file store and its endpoints                 *)
(* ===================================================================== *)

Module PatternStore.

(** The two files under [pattern_data/], each with its parsed JSON content
    when it exists.  Writing a file is taken to succeed and reading it back
    to give the value written: disk errors, and strings that UTF-8 cannot
    encode, are not covered. *)
Record store : Type := {
  patterns_file : option pyval;
  version_file : option pyval
}.

Definition empty_store : store :=
  {| patterns_file := None; version_file := None |}.

Definition save_patterns (patterns : pyval) (s : store) : store :=
  {| patterns_file := Some patterns; version_file := version_file s |}.

Definition save_version (version : pyval) (s : store) : store :=
  {| patterns_file := patterns_file s; version_file := Some version |}.

Definition INITIAL_DATA_model_version : pystr := u"1.0.0".

(** [load_version()]; [now] is [datetime.now().isoformat()]. *)
Definition load_version (now : pystr) (s : store) : pyval :=
  match version_file s with
  | Some content => content
  | None => PDict [(u"version", PStr INITIAL_DATA_model_version);
                   (u"timestamp", PStr now)]
  end.

(** [sub in s] on strings. *)
Fixpoint is_prefix (sub s : pystr) : bool :=
  match sub, s with
  | [], _ => true
  | c :: sub', c' :: s' => (c =? c')%N && is_prefix sub' s'
  | _ :: _, [] => false
  end.

Fixpoint is_substring (sub s : pystr) : bool :=
  match s with
  | [] => is_prefix sub []
  | _ :: s' => is_prefix sub s || is_substring sub s'
  end.

(** [key in v] for a string [key]: a key of a dict, an element of a list, a
    substring of a string; [None] is the [TypeError] of the other values. *)
Definition str_in_value (key : pystr) (v : pyval) : option bool :=
  match v with
  | PDict d => Some (dict_contains key d)
  | PList l => Some (existsb (fun x => match x with
                                       | PStr s => bool_decide (s = key)
                                       | _ => false
                                       end) l)
  | PStr s => Some (is_substring key s)
  | _ => None
  end.

(** [version.get('version', '1.0.0')]; [None] when [version] is not a dict. *)
Definition version_of (version : pyval) : option pyval :=
  match version with
  | PDict d => Some (default (PStr INITIAL_DATA_model_version)
                       (dict_get (u"version") d))
  | _ => None
  end.

Inductive upload_response : Type :=
| UploadOk (count : nat) (version : pyval)
| UploadBadRequest
| UploadError.

(** [POST /api/patterns/upload] with the parsed body [data].  The two files
    are written before [len(patterns)] is evaluated for the answer. *)
Definition upload_patterns (now : pystr) (s : store) (data : pyval)
  : upload_response * store :=
  if negb (py_truthy data) then (UploadBadRequest, s)
  else
    match str_in_value (u"patterns") data with
    | None => (UploadError, s)
    | Some false => (UploadBadRequest, s)
    | Some true =>
        match data with
        | PDict d =>
            let patterns := default (PList []) (dict_get (u"patterns") d) in
            let version := default (PStr INITIAL_DATA_model_version)
                             (dict_get (u"version") d) in
            let s := save_patterns patterns s in
            let s := save_version
                       (PDict [(u"version", version);
                               (u"timestamp",
                                default (PStr now) (dict_get (u"timestamp") d))])
                       s in
            match PatternSync.py_len patterns with
            | Some n => (UploadOk n version, s)
            | None => (UploadError, s)
            end
        | _ => (UploadError, s)
        end
    end.

Inductive download_response : Type :=
| DownloadOk (patterns : pyval) (version : pyval)
| DownloadError.

(** [GET /api/patterns/download]. *)
Definition download_patterns (now : pystr) (s : store) : download_response :=
  let patterns := PatternSync.load_patterns (patterns_file s) in
  match version_of (load_version now s) with
  | Some v => DownloadOk patterns v
  | None => DownloadError
  end.

Inductive list_response : Type :=
| ListOk (count : nat) (patterns : pyval)
| ListError.

(** [GET /api/patterns]. *)
Definition get_all_patterns (s : store) : list_response :=
  let patterns := PatternSync.load_patterns (patterns_file s) in
  match PatternSync.py_len patterns with
  | Some n => ListOk n patterns
  | None => ListError
  end.

(** [POST /api/reset]. *)
Definition reset_data (now : pystr) (s : store) : store :=
  save_version
    (PDict [(u"version", PStr INITIAL_DATA_model_version);
            (u"timestamp", PStr now)])
    (save_patterns PatternSync.INITIAL_DATA_patterns s).

(** [p.get('status') == status] for an entry of the patterns; [None] when
    the entry is not a dict. *)
Definition has_status (status : pystr) (p : pyval) : option bool :=
  match p with
  | PDict d =>
      Some match dict_get (u"status") d with
           | Some (PStr s) => bool_decide (s = status)
           | _ => false
           end
  | _ => None
  end.

(** [len([p for p in patterns if p.get('status') == status])] over the
    entries of a list. *)
Fixpoint count_status (status : pystr) (l : list pyval) : option nat :=
  match l with
  | [] => Some 0
  | p :: l' =>
      match has_status status p, count_status status l' with
      | Some b, Some n => Some (if b then S n else n)
      | _, _ => None
      end
  end.

Record status_counts : Type := {
  sc_model_version : pyval;
  sc_patterns_count : nat;
  sc_success_count : nat;
  sc_miss_count : nat
}.

(** The entries that [for p in v] visits: the elements of a list, the keys
    of a dict, the characters of a string; [None] is the [TypeError] of a
    value that is not iterable. *)
Definition py_iter (v : pyval) : option (list pyval) :=
  match v with
  | PList l => Some l
  | PDict d => Some (map (fun kv => PStr kv.1) d)
  | PStr s => Some (map (fun c => PStr [c]) s)
  | _ => None
  end.

(** [GET /api/status]; [None] is an exception, which this handler does not
    catch. *)
Definition get_status (now : pystr) (s : store) : option status_counts :=
  let patterns := PatternSync.load_patterns (patterns_file s) in
  match version_of (load_version now s),
        PatternSync.py_len patterns, py_iter patterns with
  | Some v, Some n, Some entries =>
      match count_status (u"success") entries, count_status (u"miss") entries with
      | Some ns, Some nm =>
          Some {| sc_model_version := v; sc_patterns_count := n;
                  sc_success_count := ns; sc_miss_count := nm |}
      | _, _ => None
      end
  | _, _, _ => None
  end.

End PatternStore.

(** An estimator that exposes no class list and returns two probabilities,
    for closed examples. *)
Definition two_class_model : sk_model :=
  {| predict_proba_row := fun _ => [0.75; 0.25]%R;
     classes_ := None; base_estimator_classes_ := None |}.

(** What the trainer relies on for a sample: twelve numbers, none of them
    NaN, and a class index among 0, 1, 2. *)
Definition well_formed_vector (vec : list float) : Prop :=
  length vec = 12 /\ Forall (fun x => ~ is_NaN x) vec.

Definition class_index (y : Z) : Prop := (y = 0 \/ y = 1 \/ y = 2)%Z.

(** [sum(class_counts.values())]. *)
Definition counter_total (counts : gmap Z nat) : nat :=
  map_fold (fun _ n s => n + s) 0 counts.

(** An upload body with two patterns and a version, and one whose patterns
    are a number, for closed examples. *)
Definition example_upload : pydict :=
  [(u"patterns",
    PList [PDict [(u"name", PStr (u"derby")); (u"status", PStr (u"miss"))];
           PDict [(u"name", PStr (u"late goal")); (u"status", PStr (u"success"))]]);
   (u"version", PStr (u"2.1.0"))].

Definition example_bad_upload : pydict := [(u"patterns", PInt 5)].

(** Whether [json.dump(..., ensure_ascii=False)] can write the value to a
    UTF-8 file: no string or key holds a surrogate code point
    (U+D800..U+DFFF). *)
Definition not_surrogate (c : N) : bool := ((c <? 55296) || (57343 <? c))%N.

Fixpoint utf8_encodable (v : pyval) : bool :=
  match v with
  | PStr s => forallb not_surrogate s
  | PList l => forallb utf8_encodable l
  | PDict d =>
      forallb (fun kv => match kv with
                         | (k, x) => forallb not_surrogate k && utf8_encodable x
                         end) d
  | _ => true
  end.

(** A payload with an implausible rating difference, one with three very
    negative OSL values and one with infinite ones, for closed examples. *)
Definition payload_large_elo : pyval :=
  PDict [(u"features", PDict [(u"eloDiff", PInt 400000)])].

Definition payload_negative_osl : pyval :=
  PDict [(u"features",
          PDict [(u"homeOsl", PInt (-10000)); (u"drawOsl", PInt (-10000));
                 (u"awayOsl", PInt (-10000))])].

Definition payload_infinite_osl : pyval :=
  PDict [(u"features",
          PDict [(u"homeOsl", PFloat infinity); (u"drawOsl", PFloat infinity);
                 (u"awayOsl", PFloat infinity)])].
(* ===================================================================== *)
(** * Field normalizer: first present, non-null candidate                 *)
(* ===================================================================== *)

Lemma normalize_field_skip data pre rest :
  Forall (absent_or_null data) pre ->
  normalize_field data (pre ++ rest) = normalize_field data rest.
Proof.
  induction 1 as [|k pre [Hk|Hk] _ IH]; simpl; [done| |]; by rewrite Hk.
Qed.

Lemma normalize_field_hit data k rest v :
  dict_get k data = Some v -> v <> PNone ->
  normalize_field data (k :: rest) = v.
Proof. intros Hk Hv. simpl. rewrite Hk. by destruct v. Qed.

Lemma normalize_field_cases data keys :
  (normalize_field data keys = PNone /\ Forall (absent_or_null data) keys)
  \/ (normalize_field data keys <> PNone /\
      exists pre k post, keys = pre ++ k :: post
        /\ Forall (absent_or_null data) pre
        /\ dict_get k data = Some (normalize_field data keys)).
Proof.
  induction keys as [|k keys IH]; simpl.
  - left. by split.
  - destruct (dict_get k data) as [v|] eqn:Hk.
    + destruct (is_none v) eqn:Hv.
      * assert (v = PNone) as -> by (by destruct v).
        destruct IH as [[IH1 IH2]|[IH1 (pre & k' & post & -> & Hpre & Hk')]].
        -- left. split; [done|]. constructor; [by right|done].
        -- right. split; [done|]. exists (k :: pre), k', post.
           repeat split; [|done]. constructor; [by right|done].
      * right. split; [by destruct v|]. by exists [], k, keys.
    + destruct IH as [[IH1 IH2]|[IH1 (pre & k' & post & -> & Hpre & Hk')]].
      * left. split; [done|]. constructor; [by left|done].
      * right. split; [done|]. exists (k :: pre), k', post.
        repeat split; [|done]. constructor; [by left|done].
Qed.

(** C7: [normalize_field] returns [v] exactly when either [v] is the value of
    the first candidate key (in list order) bound to a non-null value in the
    record, every earlier candidate being absent or bound to null, or [v] is
    [None] and every candidate key is absent or bound to null. *)
Theorem normalize_field_first_present (data : pydict) (keys : list pystr) (v : pyval) :
  normalize_field data keys = v <->
  (v <> PNone /\
   exists pre k post, keys = pre ++ k :: post
     /\ Forall (absent_or_null data) pre
     /\ dict_get k data = Some v)
  \/ (v = PNone /\ Forall (absent_or_null data) keys).
Proof.
  split.
  - intros <-. destruct (normalize_field_cases data keys) as [[? ?]|[? ?]]; eauto.
  - intros [[Hv (pre & k & post & -> & Hpre & Hk)]|[-> Hall]].
    + rewrite normalize_field_skip by done. by apply normalize_field_hit.
    + by rewrite <- (app_nil_r keys), normalize_field_skip.
Qed.

(** A record where the first candidate is bound to null and the third is
    missing: the second candidate's value is returned. *)
Example normalize_field_skips_null :
  normalize_field [(u"finalResult", PNone); (u"label", PStr (u"draw"))]
    (FIELD_MAPPING !!! "label"%string) = PStr (u"draw").
Proof. vm_compute. reflexivity. Qed.

(* ===================================================================== *)
(** * Vectorizer: twelve entries in the declared order                    *)
(* ===================================================================== *)

Lemma SFcompare_refl (s : spec_float) :
  s <> S754_nan -> SFcompare s s = Some Eq.
Proof.
  destruct s as [b|b| |b m e]; simpl; intros Hs; try done.
  - by destruct b.
  - destruct b; rewrite Z.compare_refl;
      change (Pos.compare_cont Eq m m) with (Pos.compare m m);
      by rewrite Pos.compare_refl.
Qed.

(** [x == x] is false for NaN and for nothing else. *)
Lemma self_eqb_false_iff (x : float) : PrimFloat.eqb x x = false <-> is_NaN x.
Proof.
  unfold is_NaN. rewrite FloatAxioms.eqb_spec. unfold SFeqb.
  destruct (Prim2SF x) as [b|b| |b m e] eqn:Hx; try done;
    rewrite SFcompare_refl by done; done.
Qed.

Lemma safe_num_entry `{PyRuntime} (feat : pydict) (k : pystr) :
  entry_for feat k (_safe_num (dict_get_default k feat) 0%float).
Proof.
  unfold _safe_num, dict_get_default.
  destruct (dict_get k feat) as [v|] eqn:Hk.
  - destruct (py_float v) as [x|] eqn:Hv.
    + destruct (PrimFloat.eqb x x) eqn:Hx.
      * eapply entry_number; eauto.
        intros Hn. apply self_eqb_false_iff in Hn. congruence.
      * eapply entry_nan; eauto. by apply self_eqb_false_iff.
    + eapply entry_not_numeric; eauto.
  - by apply entry_missing.
Qed.

(** C5: for every feature mapping, the vector has exactly 12 entries, one per
    declared feature name and in that order; the entry of a name that is
    missing, whose value is not coercible to a number, or whose coercion is
    NaN is 0.0, and any other entry is the numeric coercion of the mapped
    value. *)
Theorem vec_from_features_order_and_defaults `{PyRuntime} (feat : pydict) :
  length (_vec_from_features feat) = 12
  /\ Forall2 (entry_for feat) FEATURE_KEYS (_vec_from_features feat).
Proof.
  split; [reflexivity|].
  unfold _vec_from_features.
  induction FEATURE_KEYS as [|k ks IH]; simpl; constructor; [|done].
  apply safe_num_entry.
Qed.

(** A mapping with one number, one string that is not a number, one NaN and
    nine names missing. *)
Example vec_from_features_partial :
  @_vec_from_features example_runtime
    [(u"ppgDiff", PFloat 1.5); (u"eloDiff", PStr (u"n/a"));
     (u"homeOsl", PFloat nan); (u"xgAwayAgainst", PInt 2)]
  = [0; 1.5; 0; 0; 0; 0; 0; 0; 0; 0; 0; 2]%float.
Proof. vm_compute. reflexivity. Qed.

(* ===================================================================== *)
(** * Predictor: the heuristic on extreme feature values                  *)
(* ===================================================================== *)

(** C1 says that for every feature vector predict-proba returns non-negative
    probabilities that sum to 1, on the heuristic path as on the model-backed
    one.  On the heuristic path the code does not: with no model loaded, a
    rating difference of 400000 makes [math.exp] raise [OverflowError]; three
    OSL values of -10000 make the three exponentials zero and the division
    raise [ZeroDivisionError]; and three infinite OSL values, which the
    vectorizer keeps, give three NaN, which are neither non-negative nor of
    sum 1.  This holds with any exponential of the C library and any
    runtime. *)
Theorem predict_proba_heuristic_breaks `{PyRuntime} `{MathLib}
    (now : pystr) (st : server_state) :
  predict_proba_without_model now st payload_large_elo
    = PredictRaises OverflowError
  /\ predict_proba_without_model now st payload_negative_osl
    = PredictRaises ZeroDivisionError
  /\ exists answer,
       predict_proba_without_model now st payload_infinite_osl
         = PredictAnswer answer
       /\ is_NaN (f_home (pr_proba answer))
       /\ is_NaN (f_draw (pr_proba answer))
       /\ is_NaN (f_away (pr_proba answer))
       /\ PrimFloat.leb 0 (f_home (pr_proba answer)) = false
       /\ PrimFloat.eqb (f_home (pr_proba answer) + f_draw (pr_proba answer)
                         + f_away (pr_proba answer)) 1 = false.
Proof.
  split; [by vm_compute|]. split; [by vm_compute|].
  eexists. split; [by vm_compute|]. unfold is_NaN. by vm_compute.
Qed.

(** The vectors behind the three payloads, and the scores that the first two
    reach: 800 for home in the first, below -746 for all three in the
    second. *)
Example demo_proba_extreme_vectors `{PyRuntime} `{MathLib} :
  _demo_proba (_vec_from_features [(u"eloDiff", PInt 400000)])
    = Raises OverflowError
  /\ (0.20 * (400000 / 100.0))%float = 800%float
  /\ _demo_proba (repeat 0%float 11) = Raises ValueError.
Proof. by vm_compute. Qed.


(* ===================================================================== *)
(** * Pattern tables: an empty object is not stored                       *)
(* ===================================================================== *)

Lemma sync_patterns_db_cases (now : pystr) (st : server_state) (data rules : pydict) :
  normalize_field data (FIELD_MAPPING !!! "warningRules"%string) = PDict rules ->
  match rules with
  | [] =>
      exists resp, sync_patterns_db now st data = (Ok resp, st)
        /\ sync_ok resp = true /\ stored_patterns resp = 0
  | _ :: _ =>
      exists r, sync_patterns_db now st data = (r, set_patterns_db st rules)
        /\ (forall resp, r = Ok resp -> stored_patterns resp = length rules)
  end.
Proof.
  intros Hn. unfold sync_patterns_db. rewrite Hn.
  destruct rules as [|e rules]; simpl (length _ =? 0)%nat; cbv iota.
  - by eexists.
  - destruct (forallb _ _); eexists; (split; [reflexivity|]);
      intros resp [= <-]; done.
Qed.

Lemma sync_success_db_cases (now : pystr) (st : server_state) (data rules : pydict) :
  normalize_field data (FIELD_MAPPING !!! "successRules"%string) = PDict rules ->
  match rules with
  | [] =>
      exists resp, sync_success_db now st data = (Ok resp, st)
        /\ sync_ok resp = true /\ stored_patterns resp = 0
  | _ :: _ =>
      exists r, sync_success_db now st data = (r, set_success_db st rules)
        /\ (forall resp, r = Ok resp -> stored_patterns resp = length rules)
  end.
Proof.
  intros Hn. unfold sync_success_db. rewrite Hn.
  destruct rules as [|e rules]; simpl (length _ =? 0)%nat; cbv iota.
  - by eexists.
  - destruct (forallb _ _); eexists; (split; [reflexivity|]);
      intros resp [= <-]; done.
Qed.

(** C6: when the normalized rules value of a sync-patterns-db request is an
    empty object, the endpoint answers with success and [stored_patterns]
    0 and the whole state, the stored pattern table included, is what it was;
    when it is a non-empty object, the stored table becomes exactly that
    object (nothing of the previous table is kept) and no other global
    changes.  The same holds for sync-success-db and the success table. *)
Theorem sync_empty_object_not_stored
    (now : pystr) (st : server_state) (data rules : pydict) :
  (normalize_field data (FIELD_MAPPING !!! "warningRules"%string) = PDict rules ->
   let '(r, st') := sync_patterns_db now st data in
   match rules with
   | [] => st' = st
           /\ exists resp, r = Ok resp /\ sync_ok resp = true
                /\ stored_patterns resp = 0
   | _ :: _ => _patterns_db st' = rules
               /\ _success_db st' = _success_db st
               /\ _model st' = _model st
               /\ _model_version st' = _model_version st
   end)
  /\
  (normalize_field data (FIELD_MAPPING !!! "successRules"%string) = PDict rules ->
   let '(r, st') := sync_success_db now st data in
   match rules with
   | [] => st' = st
           /\ exists resp, r = Ok resp /\ sync_ok resp = true
                /\ stored_patterns resp = 0
   | _ :: _ => _success_db st' = rules
               /\ _patterns_db st' = _patterns_db st
               /\ _model st' = _model st
               /\ _model_version st' = _model_version st
   end).
Proof.
  split; intros Hn.
  - pose proof (sync_patterns_db_cases now st data rules Hn) as Hc.
    destruct rules; destruct Hc as (r & -> & Hr); [|done].
    split; [done|]. by exists r.
  - pose proof (sync_success_db_cases now st data rules Hn) as Hc.
    destruct rules; destruct Hc as (r & -> & Hr); [|done].
    split; [done|]. by exists r.
Qed.

(** An empty [warningRules] (resp. [successRules]) object sent to a server
    that holds a table. *)
Lemma sync_empty_object_not_stored_witness :
  sync_patterns_db (u"20240101_000000") state_with_table
    [(u"warningRules", PDict [])]
  = (Ok {| sync_ok := true; sync_warning := Some (u"Empty warningRules");
           stored_patterns := 0; sync_timestamp := None |}, state_with_table)
  /\ snd (sync_success_db (u"20240101_000000") state_with_table
            [(u"success_rules", PDict [])]) = state_with_table.
Proof.
  pose proof (sync_empty_object_not_stored (u"20240101_000000") state_with_table
                [(u"warningRules", PDict [])] []) as [Hp _].
  pose proof (sync_empty_object_not_stored (u"20240101_000000") state_with_table
                [(u"success_rules", PDict [])] []) as [_ Hs].
  split.
  - specialize (Hp eq_refl).
    destruct (sync_patterns_db _ _ _) as [r st'] eqn:E.
    destruct Hp as [-> _]. rewrite <- E. vm_compute. reflexivity.
  - specialize (Hs eq_refl).
    destruct (sync_success_db _ _ _) as [r st'] eqn:E.
    by destruct Hs as [-> _].
Defined.

(** A non-empty object replaces the table: the old entry is gone. *)
Example sync_patterns_db_replaces :
  _patterns_db (snd (sync_patterns_db (u"20240101_000000") state_with_table
     [(u"patterns", PDict [(u"derby", PDict [(u"total", PInt 1)])])]))
  = [(u"derby", PDict [(u"total", PInt 1)])].
Proof. vm_compute. reflexivity. Qed.

(** An entry that is not a dict breaks the log line after the table was
    stored: the answer is an error and the table is replaced all the same. *)
Example sync_patterns_db_error_after_store :
  sync_patterns_db (u"20240101_000000") initial_state
    [(u"warningRules", PDict [(u"derby", PInt 3)])]
  = (HTTPError 500 UnhandledException,
     set_patterns_db initial_state [(u"derby", PInt 3)]).
Proof. vm_compute. reflexivity. Qed.

(* ===================================================================== *)
(** * The legacy retrain endpoint                                         *)
(* ===================================================================== *)

(** C8: for every payload, retrain-models answers ok with [received] equal
    to the length of the payload when it is a list and to 1 otherwise, and
    returns the state (model, model version, both pattern tables) as it
    received it. *)
Theorem retrain_models_is_echo (now : pystr) (st : server_state) (payload : pyval) :
  exists resp, retrain_models now st payload = (resp, st)
    /\ echo_ok resp = true
    /\ (forall l, payload = PList l -> echo_received resp = length l)
    /\ ((forall l, payload <> PList l) -> echo_received resp = 1).
Proof.
  eexists; split; [reflexivity|]. simpl. split; [done|]. split.
  - by intros l ->.
  - intros Hl. destruct payload; try done. by destruct (Hl l).
Qed.

Lemma retrain_models_is_echo_witness :
  (exists resp, retrain_models (u"20240101_000000") state_with_table
                  (PList [PInt 1; PNone; PStr (u"x")]) = (resp, state_with_table)
     /\ echo_received resp = 3)
  /\ (exists resp, retrain_models (u"20240101_000000") state_with_table
                  (PDict [(u"rows", PList [])]) = (resp, state_with_table)
     /\ echo_received resp = 1).
Proof.
  split.
  - destruct (retrain_models_is_echo (u"20240101_000000") state_with_table
                (PList [PInt 1; PNone; PStr (u"x")])) as (resp & E & _ & Hl & _).
    exists resp. split; [done|]. by rewrite (Hl _ eq_refl).
  - destruct (retrain_models_is_echo (u"20240101_000000") state_with_table
                (PDict [(u"rows", PList [])])) as (resp & E & _ & _ & Hn).
    exists resp. split; [done|]. by apply Hn.
Defined.

(* ===================================================================== *)
(** * Labels that are not strings go through [int()]                      *)
(* ===================================================================== *)

Lemma parse_label_non_string `{PyRuntime} (lab : pyval) :
  (forall s, lab <> PStr s) ->
  parse_label lab =
    match py_int lab with
    | Some y =>
        if bool_decide (y ∈ [0%Z; 1%Z; 2%Z]) then inl y
        else inr "label_out_of_range"%string
    | None => inr "invalid_label_type"%string
    end.
Proof. intros Hs. destruct lab; try done. by destruct (Hs s). Qed.

Lemma loop_body_row `{PyRuntime} (acc : loop_acc) (d f : pydict) (lab : pyval) :
  normalize_field d (FIELD_MAPPING !!! "features"%string) = PDict f ->
  normalize_field d (FIELD_MAPPING !!! "label"%string) = lab ->
  loop_body acc (PDict d) =
    match parse_label lab with
    | inl y => accept (_vec_from_features f) y acc
    | inr reason => reject reason acc
    end.
Proof. intros Hf Hl. unfold loop_body. by rewrite Hf, Hl. Qed.

Lemma accept_effect (vec : list float) (y : Z) (acc : loop_acc) :
  X_list (accept vec y acc) = X_list acc ++ [vec]
  /\ y_list (accept vec y acc) = y_list acc ++ [y]
  /\ valid_count (accept vec y acc) = valid_count acc + 1
  /\ invalid_reason_counts (accept vec y acc) = invalid_reason_counts acc.
Proof. by unfold accept. Qed.

(** C9: in retrain-automated a label that is not a string is parsed by
    [int()]: whenever the conversion gives 0, 1 or 2 the label is that
    class, and the row joins the training set: its vector is appended to the
    vectors, the class to the labels that [fit] receives, the valid count
    grows by one and no rejection counter moves.  So [False] trains as class
    0 and [True] as class 1, and the float 1.9 is truncated and trains as
    class 1: a batch of these three rows yields the labels 0, 1, 1 and no
    rejection, [invalid_label_type] included. *)
Theorem non_string_label_coerced_by_int `{PyRuntime} :
  (forall lab y, (forall s, lab <> PStr s) -> py_int lab = Some y ->
     (y = 0 \/ y = 1 \/ y = 2)%Z ->
     parse_label lab = inl y
     /\ forall acc d f,
          normalize_field d (FIELD_MAPPING !!! "features"%string) = PDict f ->
          normalize_field d (FIELD_MAPPING !!! "label"%string) = lab ->
          let acc' := loop_body acc (PDict d) in
          X_list acc' = X_list acc ++ [_vec_from_features f]
          /\ y_list acc' = y_list acc ++ [y]
          /\ valid_count acc' = valid_count acc + 1
          /\ invalid_reason_counts acc' = invalid_reason_counts acc)
  /\ (py_int (PBool false) = Some 0%Z
      /\ py_int (PBool true) = Some 1%Z
      /\ py_int (PFloat 0x1.e666666666666p+0) = Some 1%Z)
  /\ (let acc := fold_left loop_body
                   [example_row (PBool false); example_row (PBool true);
                    example_row (PFloat 0x1.e666666666666p+0)] acc_empty in
      y_list acc = [0; 1; 1]%Z
      /\ length (X_list acc) = 3
      /\ valid_count acc = 3
      /\ invalid_reason_counts acc = ∅).
Proof.
  split; [|split; by vm_compute].
  intros lab y Hs Hy Hr.
  assert (parse_label lab = inl y) as Hp.
  { rewrite parse_label_non_string, Hy by done.
    by destruct Hr as [->| [->| ->]]. }
  split; [done|]. intros acc d f Hf Hl acc'. subst acc'.
  rewrite (loop_body_row acc d f lab Hf Hl), Hp. apply accept_effect.
Qed.

(** A batch row whose label is [True]: class 1 is appended to the labels and
    the valid count becomes 1. *)
Lemma non_string_label_coerced_by_int_witness :
  let acc := @loop_body example_runtime acc_empty
               (PDict [(u"features", PDict [(u"eloDiff", PInt 3)]);
                       (u"label", PBool true)]) in
  y_list acc = [1%Z] /\ valid_count acc = 1 /\ invalid_reason_counts acc = ∅.
Proof.
  destruct (@non_string_label_coerced_by_int example_runtime) as [Hgen _].
  destruct (Hgen (PBool true) 1%Z) as [_ Hrow].
  - discriminate.
  - reflexivity.
  - lia.
  - destruct (Hrow acc_empty
                [(u"features", PDict [(u"eloDiff", PInt 3)]);
                 (u"label", PBool true)]
                [(u"eloDiff", PInt 3)]) as (_ & Hy & Hv & Hr).
    + vm_compute. reflexivity.
    + vm_compute. reflexivity.
    + intros acc. subst acc. by rewrite Hy, Hv, Hr.
Defined.

(* ===================================================================== *)
(** * The Flask service: pattern ids that are negative or not numbers     *)
(* ===================================================================== *)

Lemma seq_index_negative {A} (l : list A) (i : Z) :
  (i < 0)%Z -> (- i <= Z.of_nat (length l))%Z ->
  exists x, l !! Z.to_nat (Z.of_nat (length l) + i) = Some x
    /\ PatternSync.seq_index l i = Some x.
Proof.
  intros Hneg Hrange.
  destruct (lookup_lt_is_Some_2 l (Z.to_nat (Z.of_nat (length l) + i)))
    as [x Hx]; [lia|].
  exists x. split; [done|]. unfold PatternSync.seq_index.
  destruct (Z.ltb_spec i 0); [|lia].
  destruct (Z.leb_spec 0 (i + Z.of_nat (length l))); [|lia].
  by rewrite Z.add_comm.
Qed.

(** C10: [get_pattern] compares [int(pattern_id)] with the length only from
    above.  When the stored patterns are a list and the id parses to a
    negative integer of absolute value at most the length, the answer is a
    success (200, not 404) carrying the pattern at that index counted from
    the end; and an id that does not parse as an integer ends in the
    exception handler with status 500 (not 404). *)
Theorem get_pattern_negative_and_unparsable `{PyRuntime}
    (patterns_file : option pyval) (pattern_id : pystr) :
  (forall l i,
     PatternSync.load_patterns patterns_file = PList l ->
     int_of_str pattern_id = Some i ->
     (i < 0)%Z -> (- i <= Z.of_nat (length l))%Z ->
     exists p, l !! Z.to_nat (Z.of_nat (length l) + i) = Some p
       /\ PatternSync.get_pattern patterns_file pattern_id
          = PatternSync.PatternFound p
       /\ PatternSync.status_of
            (PatternSync.get_pattern patterns_file pattern_id) = 200%Z)
  /\ (int_of_str pattern_id = None ->
      PatternSync.get_pattern patterns_file pattern_id = PatternSync.PatternError
      /\ PatternSync.status_of
           (PatternSync.get_pattern patterns_file pattern_id) = 500%Z).
Proof.
  split.
  - intros l i Hl Hi Hneg Hrange.
    destruct (seq_index_negative l i Hneg Hrange) as (p & Hp & Hidx).
    exists p. split; [done|].
    assert (PatternSync.get_pattern patterns_file pattern_id
            = PatternSync.PatternFound p) as ->; [|done].
    unfold PatternSync.get_pattern. rewrite Hl, Hi. simpl.
    destruct (Z.ltb_spec i (Z.of_nat (length l))); [|lia].
    by rewrite Hidx.
  - intros Hi. unfold PatternSync.get_pattern. by rewrite Hi.
Qed.

(** With the initial patterns, id [-1] answers with the last pattern and id
    [abc] with status 500. *)
Lemma get_pattern_negative_and_unparsable_witness :
  @PatternSync.get_pattern example_runtime None (u"-1")
  = PatternSync.PatternFound
      (PatternSync.pattern "이동평균선 교차" "success" "success_rate" 88.4 220)
  /\ PatternSync.status_of
       (@PatternSync.get_pattern example_runtime None (u"abc")) = 500%Z.
Proof.
  split.
  - destruct (@get_pattern_negative_and_unparsable example_runtime None (u"-1"))
      as [Hneg _].
    destruct (Hneg _ (-1)%Z eq_refl eq_refl) as (p & Hp & -> & _).
    + lia.
    + simpl. lia.
    + vm_compute in Hp. by injection Hp as <-.
  - destruct (@get_pattern_negative_and_unparsable example_runtime None (u"abc"))
      as [_ Hbad].
    by destruct (Hbad eq_refl) as [_ ->].
Defined.

(** Below [-len] the subscript raises and the answer is 500; at [len] and
    above it is the 404 branch. *)
Example get_pattern_out_of_range :
  @PatternSync.get_pattern example_runtime None (u"-11") = PatternSync.PatternError
  /\ @PatternSync.get_pattern example_runtime None (u"10") = PatternSync.PatternNotFound
  /\ PatternSync.status_of (@PatternSync.get_pattern example_runtime None (u"0")) = 200%Z.
Proof. by vm_compute. Qed.

(* ===================================================================== *)
(** * Trainer: counters                                                   *)
(* ===================================================================== *)

Section Counters.
Context {K : Type} `{Countable K}.

Lemma bump_lookup_eq (k : K) (d : gmap K nat) :
  bump k d !! k = Some (default 0 (d !! k) + 1).
Proof. unfold bump. by rewrite lookup_insert_eq. Qed.

Lemma bump_lookup_ne (k k' : K) (d : gmap K nat) :
  k <> k' -> bump k d !! k' = d !! k'.
Proof. intros Hne. unfold bump. by rewrite lookup_insert_ne. Qed.

End Counters.

Lemma histogram_total_insert (k : string) (n : nat) (h : gmap string nat) :
  h !! k = None -> histogram_total (<[k := n]> h) = n + histogram_total h.
Proof.
  intros Hk. unfold histogram_total.
  rewrite map_fold_insert_L; [done| |done]. intros; lia.
Qed.

Lemma histogram_total_bump (k : string) (h : gmap string nat) :
  histogram_total (bump k h) = S (histogram_total h).
Proof.
  unfold bump. destruct (h !! k) as [n|] eqn:Hk; simpl.
  - rewrite <- (insert_delete_eq h), histogram_total_insert
      by apply lookup_delete_eq.
    rewrite <- (insert_id h k n) at 2 by done.
    rewrite <- (insert_delete_eq h), histogram_total_insert
      by apply lookup_delete_eq.
    lia.
  - by rewrite histogram_total_insert.
Qed.

Lemma occurrences_cons (c y : Z) (ys : list Z) :
  occurrences c (y :: ys) =
    if decide (y = c) then S (occurrences c ys) else occurrences c ys.
Proof.
  unfold occurrences. simpl. destruct (Z.eq_dec y c); by case_decide.
Qed.

Lemma occurrences_pos (c : Z) (ys : list Z) : c ∈ ys <-> 0 < occurrences c ys.
Proof.
  unfold occurrences. rewrite list_elem_of_In, (count_occ_In Z.eq_dec). lia.
Qed.

Lemma fold_bump_lookup (ys : list Z) (m : gmap Z nat) (c : Z) :
  fold_left (fun counts v => bump v counts) ys m !! c =
    if decide (occurrences c ys = 0) then m !! c
    else Some (default 0 (m !! c) + occurrences c ys).
Proof.
  revert m. induction ys as [|y ys IH]; intros m; [done|].
  simpl fold_left. rewrite IH, occurrences_cons.
  destruct (decide (y = c)) as [->|Hne].
  - rewrite bump_lookup_eq. simpl.
    repeat case_decide; try lia; f_equal; lia.
  - by rewrite bump_lookup_ne.
Qed.

Lemma Counter_lookup (ys : list Z) (c : Z) :
  Counter ys !! c =
    if decide (occurrences c ys = 0) then None else Some (occurrences c ys).
Proof. unfold Counter. rewrite fold_bump_lookup. by case_decide. Qed.

Lemma Counter_lookup_Some (ys : list Z) (c : Z) (n : nat) :
  Counter ys !! c = Some n <-> c ∈ ys /\ occurrences c ys = n.
Proof.
  rewrite Counter_lookup, occurrences_pos.
  case_decide; split; try intros [= <-]; try intros [? <-]; try done; try lia.
Qed.

Lemma Counter_dom (ys : list Z) (c : Z) : c ∈ dom (Counter ys) <-> c ∈ ys.
Proof.
  rewrite elem_of_dom. unfold is_Some. split.
  - intros [n Hn]. by apply Counter_lookup_Some in Hn as [? _].
  - intros Hc. exists (occurrences c ys). by apply Counter_lookup_Some.
Qed.

(** Fewer than two distinct classes: the counter has at most one key. *)
Lemma Counter_size_one_class (ys : list Z) :
  (forall c1 c2, c1 ∈ ys -> c2 ∈ ys -> c1 = c2) -> size (Counter ys) < 2.
Proof.
  intros Hsame. rewrite <- size_dom.
  destruct ys as [|c ys].
  - unfold Counter. simpl. rewrite dom_empty_L, size_empty. lia.
  - assert (dom (Counter (c :: ys)) ⊆ ({[c]} : gset Z)) as Hsub.
    { intros c' Hc'%Counter_dom. apply elem_of_singleton.
      apply Hsame; [done|]. by left. }
    apply subseteq_size in Hsub. rewrite size_singleton in Hsub. lia.
Qed.

(** Two distinct classes: at least two keys. *)
Lemma Counter_size_two_classes (ys : list Z) (c1 c2 : Z) :
  c1 ∈ ys -> c2 ∈ ys -> c1 <> c2 -> 2 <= size (Counter ys).
Proof.
  intros H1 H2 Hne. rewrite <- size_dom.
  assert (({[c1]} ∪ {[c2]} : gset Z) ⊆ dom (Counter ys)) as Hsub.
  { intros c [->%elem_of_singleton| ->%elem_of_singleton]%elem_of_union;
      by apply Counter_dom. }
  apply subseteq_size in Hsub.
  rewrite size_union, !size_singleton in Hsub; [done|]. set_solver.
Qed.

Lemma fold_min_spec (l : list nat) (x : nat) :
  fold_left Nat.min l x <= x
  /\ (forall y, y ∈ l -> fold_left Nat.min l x <= y)
  /\ (fold_left Nat.min l x = x \/ fold_left Nat.min l x ∈ l).
Proof.
  revert x. induction l as [|a l IH]; intros x; simpl.
  - split; [done|]. split; [|by left]. intros y Hy. by apply elem_of_nil in Hy.
  - destruct (IH (Nat.min x a)) as (Hle & Hall & Hmem).
    split; [lia|]. split.
    + intros y [->|Hy]%elem_of_cons; [lia|by apply Hall].
    + destruct Hmem as [Hm|Hm]; [|right; by right].
      rewrite Hm. destruct (Nat.min_spec x a) as [[_ ->]|[_ ->]];
        [by left|right; by left].
Qed.

Lemma py_min_spec (l : list nat) (m : nat) :
  py_min l = Some m -> m ∈ l /\ forall y, y ∈ l -> m <= y.
Proof.
  destruct l as [|x l]; [done|]. intros [= <-].
  destruct (fold_min_spec l x) as (Hle & Hall & Hmem). split.
  - destruct Hmem as [->|Hm]; [by left|by right].
  - intros y [->|Hy]%elem_of_cons; [done|by apply Hall].
Qed.

Lemma counter_values_elem (counts : gmap Z nat) (n : nat) :
  n ∈ counter_values counts <-> exists c, counts !! c = Some n.
Proof.
  unfold counter_values. rewrite list_elem_of_fmap. split.
  - intros ([c n'] & -> & Hm%elem_of_map_to_list). by exists c.
  - intros [c Hc]. exists (c, n). split; [done|]. by apply elem_of_map_to_list.
Qed.

(** [min(counts.values())] is the size of the rarest class present. *)
Lemma min_class_count_minority (ys : list Z) (m : nat) :
  py_min (counter_values (Counter ys)) = Some m -> minority_count ys m.
Proof.
  intros (Hm & Hall)%py_min_spec. split.
  - apply counter_values_elem in Hm as [c Hc].
    apply Counter_lookup_Some in Hc. by exists c.
  - intros c Hc. apply Hall, counter_values_elem. exists c.
    by apply Counter_lookup_Some.
Qed.

Lemma min_class_count_exists (ys : list Z) (c : Z) :
  c ∈ ys -> exists m, py_min (counter_values (Counter ys)) = Some m.
Proof.
  intros Hc.
  assert (occurrences c ys ∈ counter_values (Counter ys)) as Hin.
  { apply counter_values_elem. exists c. by apply Counter_lookup_Some. }
  destruct (counter_values (Counter ys)) as [|x l]; [by apply elem_of_nil in Hin|].
  by eexists.
Qed.

(* ===================================================================== *)
(** * Trainer: the row loop                                               *)
(* ===================================================================== *)

Section RowLoop.
Context `{PyRuntime}.

Lemma loop_body_cases (acc : loop_acc) (row : pyval) :
  (exists vec y, loop_body acc row = accept vec y acc)
  \/ (exists reason, loop_body acc row = reject reason acc).
Proof.
  unfold loop_body. destruct row; eauto.
  destruct (normalize_field d _); eauto.
  destruct (parse_label _); eauto.
Qed.

Lemma loop_body_invariant (n : nat) (acc : loop_acc) (row : pyval) :
  loop_invariant n acc -> loop_invariant (S n) (loop_body acc row).
Proof.
  intros (HX & Hy & Hn).
  destruct (loop_body_cases acc row) as [(vec & y & ->)|(reason & ->)];
    unfold loop_invariant; simpl.
  - rewrite !length_app. simpl. lia.
  - rewrite histogram_total_bump. lia.
Qed.

Lemma loop_invariant_fold (rows : list pyval) (n : nat) (acc : loop_acc) :
  loop_invariant n acc ->
  loop_invariant (n + length rows) (fold_left loop_body rows acc).
Proof.
  revert n acc. induction rows as [|row rows IH]; intros n acc Hinv; simpl.
  - by rewrite Nat.add_0_r.
  - replace (n + S (length rows)) with (S n + length rows) by lia.
    by apply IH, loop_body_invariant.
Qed.

Lemma loop_invariant_batch (rows : list pyval) :
  loop_invariant (length rows) (fold_left loop_body rows acc_empty).
Proof.
  apply (loop_invariant_fold rows 0 acc_empty).
  unfold loop_invariant, histogram_total. simpl. by rewrite map_fold_empty.
Qed.

End RowLoop.

(* ===================================================================== *)
(** * Trainer: rejection of a batch with fewer than two classes           *)
(* ===================================================================== *)

(** C3: when the valid rows of a batch carry fewer than two distinct classes
    (no valid row at all included), retrain-automated fails with status 400,
    and the in-memory model and the model version string are what they were
    before the request, as are both pattern tables. *)
Theorem retrain_rejects_single_class `{PyRuntime} `{Sklearn}
    (now : pystr) (saved : bool) (st : server_state) (rows : list pyval) :
  let ys := y_list (fold_left loop_body rows acc_empty) in
  (forall c1 c2, c1 ∈ ys -> c2 ∈ ys -> c1 = c2) ->
  exists detail st',
    retrain_automated now saved st (PList rows) = (HTTPError 400 detail, st')
    /\ _model st' = _model st
    /\ _model_version st' = _model_version st
    /\ _patterns_db st' = _patterns_db st
    /\ _success_db st' = _success_db st.
Proof.
  intros ys Hsame. unfold retrain_automated.
  fold ys. destruct (X_list _) as [|vec X].
  - by eexists _, _.
  - apply Counter_size_one_class in Hsame.
    destruct (Nat.ltb_spec (size (Counter ys)) 2) as [_|Hge]; [|lia].
    by eexists _, _.
Qed.

(** An empty batch, and a batch of two rows of the same class, against a
    server that holds a model. *)
Lemma retrain_rejects_single_class_witness :
  let st := set_model initial_state example_model (u"sklr-calibrated-20240101_000000") in
  (exists detail st',
     @retrain_automated example_runtime example_sklearn (u"20240102_000000") true
       st (PList []) = (HTTPError 400 detail, st')
     /\ _model st' = Some example_model
     /\ _model_version st' = u"sklr-calibrated-20240101_000000")
  /\ (exists detail st',
     @retrain_automated example_runtime example_sklearn (u"20240102_000000") true
       st (PList [PDict [(u"features", PDict []); (u"label", PStr (u"Home Win"))];
                  PDict [(u"features", PDict []); (u"finalResult", PInt 0)]])
       = (HTTPError 400 detail, st')
     /\ _model st' = Some example_model
     /\ _model_version st' = u"sklr-calibrated-20240101_000000").
Proof.
  intros st. split.
  - destruct (@retrain_rejects_single_class example_runtime example_sklearn
                (u"20240102_000000") true st [])
      as (detail & st' & E & Hm & Hv & _).
    + intros c1 c2 Hc1. by apply elem_of_nil in Hc1.
    + exists detail, st'. split; [exact E|].
      split; [rewrite Hm|rewrite Hv]; reflexivity.
  - destruct (@retrain_rejects_single_class example_runtime example_sklearn
                (u"20240102_000000") true st
                [PDict [(u"features", PDict []); (u"label", PStr (u"Home Win"))];
                 PDict [(u"features", PDict []); (u"finalResult", PInt 0)]])
      as (detail & st' & E & Hm & Hv & _).
    + assert (y_list (@fold_left _ _ (@loop_body example_runtime)
                [PDict [(u"features", PDict []); (u"label", PStr (u"Home Win"))];
                 PDict [(u"features", PDict []); (u"finalResult", PInt 0)]]
                acc_empty) = [0; 0]%Z) as -> by (vm_compute; reflexivity).
      intros c1 c2 Hc1 Hc2.
      assert (forall c, c ∈ [0; 0]%Z -> c = 0%Z) as Hall.
      { intros c Hc. repeat (apply elem_of_cons in Hc as [->|Hc]; [done|]).
        by apply elem_of_nil in Hc. }
      by rewrite (Hall c1 Hc1), (Hall c2 Hc2).
    + exists detail, st'. split; [exact E|].
      split; [rewrite Hm|rewrite Hv]; reflexivity.
Defined.

(* ===================================================================== *)
(** * Trainer: choice between the calibrated and the plain pipeline       *)
(* ===================================================================== *)

Lemma choose_plan_calibrated_2 (m n : nat) :
  choose_plan m n = Calibrated 2 <-> m = 2 /\ 6 <= n.
Proof.
  unfold choose_plan.
  destruct (Nat.leb_spec 2 m), (Nat.leb_spec 6 n), (Nat.eqb_spec m 2);
    simpl; split; try done; try lia; intros [? ?]; lia.
Qed.

Lemma choose_plan_calibrated_3 (m n : nat) :
  choose_plan m n = Calibrated 3 <-> 3 <= m /\ 6 <= n.
Proof.
  unfold choose_plan.
  destruct (Nat.leb_spec 2 m), (Nat.leb_spec 6 n), (Nat.eqb_spec m 2);
    simpl; split; try done; try lia; intros [? ?]; lia.
Qed.

Lemma choose_plan_plain (m n : nat) :
  choose_plan m n = PlainLogreg <-> m < 2 \/ n < 6.
Proof.
  unfold choose_plan.
  destruct (Nat.leb_spec 2 m), (Nat.leb_spec 6 n), (Nat.eqb_spec m 2);
    simpl; split; try done; try lia; intros [?|?]; lia.
Qed.

(** C2: for a batch whose valid rows carry at least two distinct classes,
    retrain-automated fits one estimator, chosen by the size [m] of the
    rarest class present and the number of valid samples: the calibrated
    pipeline with 2 folds exactly when [m = 2] and there are at least 6
    samples, the calibrated pipeline with 3 folds exactly when [m >= 3] and
    there are at least 6 samples, and the plain scaler + logistic-regression
    pipeline in every other case.  When the fit returns, the answer reports
    that mode and the fitted estimator is stored under the matching version
    tag. *)
Theorem calibration_choice `{PyRuntime} `{Sklearn}
    (now : pystr) (saved : bool) (st : server_state) (rows : list pyval) :
  let acc := fold_left loop_body rows acc_empty in
  let ys := y_list acc in
  (exists c1 c2, c1 ∈ ys /\ c2 ∈ ys /\ c1 <> c2) ->
  exists m plan,
    minority_count ys m
    /\ (plan = Calibrated 2 <-> m = 2 /\ 6 <= length ys)
    /\ (plan = Calibrated 3 <-> 3 <= m /\ 6 <= length ys)
    /\ (plan = PlainLogreg <-> m < 2 \/ length ys < 6)
    /\ (forall clf, fit plan (X_list acc) ys = Some clf ->
        exists resp,
          retrain_automated now saved st (PList rows)
          = (Ok resp, set_model (_ensure_sklearn st) clf (version_tag plan now))
          /\ rs_mode resp = mode_name plan
          /\ rs_new_model_version resp = version_tag plan now)
    /\ (fit plan (X_list acc) ys = None ->
        retrain_automated now saved st (PList rows)
        = (HTTPError 500 UnhandledException, _ensure_sklearn st)).
Proof.
  intros acc ys (c1 & c2 & Hc1 & Hc2 & Hne).
  destruct (min_class_count_exists ys c1 Hc1) as [m Hm].
  exists m, (choose_plan m (length ys)).
  split; [by apply min_class_count_minority|].
  split; [apply choose_plan_calibrated_2|].
  split; [apply choose_plan_calibrated_3|].
  split; [apply choose_plan_plain|].
  assert (exists vec X, X_list acc = vec :: X) as (vec & X & HX).
  { destruct (loop_invariant_batch rows) as (HlX & Hly & _).
    fold acc in HlX, Hly. fold ys in Hly.
    destruct (X_list acc) as [|vec X]; [|by eauto].
    destruct Hc1; simpl in *; lia. }
  pose proof (Counter_size_two_classes ys c1 c2 Hc1 Hc2 Hne) as Hsize.
  assert (retrain_automated now saved st (PList rows) =
          match fit (choose_plan m (length ys)) (X_list acc) ys with
          | None => (HTTPError 500 UnhandledException, _ensure_sklearn st)
          | Some clf =>
              (Ok {| rs_received := length (X_list acc);
                     rs_valid := valid_count acc;
                     rs_invalid := (Z.of_nat (length rows)
                                    - Z.of_nat (valid_count acc))%Z;
                     rs_invalid_reasons := invalid_reason_counts acc;
                     rs_class_counts := Counter ys;
                     rs_new_model_version :=
                       version_tag (choose_plan m (length ys)) now;
                     rs_saved := saved;
                     rs_mode := mode_name (choose_plan m (length ys)) |},
               set_model (_ensure_sklearn st) clf
                 (version_tag (choose_plan m (length ys)) now))
          end) as Heq.
  { unfold retrain_automated. fold acc. fold ys. rewrite HX at 1.
    destruct (Nat.ltb_spec (size (Counter ys)) 2) as [Hlt|_]; [lia|].
    by rewrite Hm. }
  split.
  - intros clf Hfit. rewrite Heq, Hfit. by eexists.
  - intros Hfit. by rewrite Heq, Hfit.
Qed.

(** Two home rows and four draw rows: six samples, the rarest class has two,
    so the calibrated pipeline is fitted with 2 folds. *)
Lemma calibration_choice_witness :
  y_list (@fold_left _ _ (@loop_body example_runtime) example_batch acc_empty)
    = [0; 0; 1; 1; 1; 1]%Z
  /\ exists resp st',
       @retrain_automated example_runtime example_sklearn
         (u"20240102_000000") true initial_state (PList example_batch)
       = (Ok resp, st')
       /\ rs_mode resp = u"calibrated"
       /\ _model st' = Some example_model.
Proof.
  assert (y_list (@fold_left _ _ (@loop_body example_runtime) example_batch acc_empty)
          = [0; 0; 1; 1; 1; 1]%Z) as Hys by (vm_compute; reflexivity).
  split; [exact Hys|].
  destruct (@calibration_choice example_runtime example_sklearn
              (u"20240102_000000") true initial_state example_batch)
    as (m & plan & ((c & Hc & Hocc) & Hmin) & H2 & _ & _ & Hfit & _).
  { rewrite Hys. exists 0%Z, 1%Z. split; [by left|].
    split; [right; right; by left|done]. }
  rewrite Hys in Hc, Hocc, Hmin, H2.
  assert (m = 2) as ->.
  { assert (m <= occurrences 0 [0; 0; 1; 1; 1; 1]%Z) as Hle
      by (apply Hmin; by left).
    vm_compute in Hle.
    assert (c = 0 \/ c = 1)%Z as [-> | ->].
    { repeat (apply elem_of_cons in Hc as [->|Hc]; [lia|]).
      by apply elem_of_nil in Hc. }
    - by vm_compute in Hocc.
    - vm_compute in Hocc. apply Nat.leb_le in Hle. subst m. discriminate. }
  assert (plan = Calibrated 2) as ->.
  { apply H2. split; [done|]. simpl. lia. }
  destruct (Hfit example_model eq_refl) as (resp & E & Hmode & _).
  eexists resp, _. split; [exact E|].
  split; [rewrite Hmode|]; reflexivity.
Defined.

(* ===================================================================== *)
(** * Label parser and rejection counters                                 *)
(* ===================================================================== *)

Section LabelParser.
Context `{PyRuntime}.

Lemma label_tuples_flat :
  LABEL_SYNONYMS.*1 = HOME_LABELS ++ DRAW_LABELS ++ AWAY_LABELS.
Proof. reflexivity. Qed.

Lemma parse_label_synonym (s syn : pystr) (c : Z) :
  (syn, c) ∈ LABEL_SYNONYMS -> str_lower (str_strip s) = syn ->
  parse_label (PStr s) = inl c.
Proof.
  intros Hin Heq. unfold parse_label. rewrite Heq. clear Heq.
  unfold LABEL_SYNONYMS in Hin.
  repeat (apply elem_of_cons in Hin as [[= -> ->]|Hin]; [by vm_compute|]).
  by apply elem_of_nil in Hin.
Qed.

Lemma parse_label_unknown_string (s : pystr) :
  str_lower (str_strip s) ∉ LABEL_SYNONYMS.*1 ->
  parse_label (PStr s) = inr "invalid_label"%string.
Proof.
  rewrite label_tuples_flat, !elem_of_app. intros Hnot.
  unfold parse_label, str_in.
  repeat (case_bool_decide; [tauto|]). done.
Qed.

Lemma parse_label_int (z : Z) :
  parse_label (PInt z) =
    if bool_decide (z = 0 \/ z = 1 \/ z = 2)%Z then inl z
    else inr "label_out_of_range"%string.
Proof.
  unfold parse_label. simpl.
  case_bool_decide as Hin; case_bool_decide as Hz; try done; exfalso.
  - rewrite !elem_of_cons, elem_of_nil in Hin. tauto.
  - rewrite !elem_of_cons, elem_of_nil in Hin. tauto.
Qed.

Lemma reject_effect (reason : string) (acc : loop_acc) :
  invalid_reason_counts (reject reason acc) !! reason
    = Some (default 0 (invalid_reason_counts acc !! reason) + 1)
  /\ (forall r, r <> reason ->
      invalid_reason_counts (reject reason acc) !! r
      = invalid_reason_counts acc !! r)
  /\ X_list (reject reason acc) = X_list acc
  /\ y_list (reject reason acc) = y_list acc
  /\ valid_count (reject reason acc) = valid_count acc.
Proof.
  simpl. split; [apply bump_lookup_eq|]. split; [|done].
  intros r Hr. by apply bump_lookup_ne.
Qed.

Lemma retrain_automated_ok `{Sklearn} (now : pystr) (saved : bool)
    (st st' : server_state) (rows : list pyval) (resp : retrain_summary) :
  retrain_automated now saved st (PList rows) = (Ok resp, st') ->
  let acc := fold_left loop_body rows acc_empty in
  rs_received resp = length (X_list acc)
  /\ rs_valid resp = valid_count acc
  /\ rs_invalid resp = (Z.of_nat (length rows) - Z.of_nat (valid_count acc))%Z
  /\ rs_invalid_reasons resp = invalid_reason_counts acc.
Proof.
  intros Hr acc. unfold retrain_automated in Hr. fold acc in Hr.
  destruct (X_list acc) eqn:HX; [done|].
  destruct (size _ <? 2)%nat; [done|].
  destruct (py_min _); [|done].
  destruct (fit _ _ _); [|done].
  injection Hr as <- _. by simpl.
Qed.

(** C4: the label of a retraining row.  An integer is valid exactly when it
    is 0, 1 or 2, and then it is its own class.  A string is trimmed and
    case-folded and looked up in the synonym table: every synonym gives the
    class of its entry (so [Home Win] is 0, [무승부] is 1, [2] is 2, and the
    integer 1 is 1), and a string outside the table is rejected under
    [invalid_label].  Any other value goes through [int()]: out of range is
    [label_out_of_range], not coercible is [invalid_label_type].  A rejected
    row adds one to exactly its counter and leaves the training set and the
    valid count alone; over a batch every row is either in the training set
    or under one counter, so the [invalid] total of the answer is the sum of
    the counters. *)
Theorem label_parser_and_rejections `{Sklearn} :
  (forall z y, parse_label (PInt z) = inl y <-> y = z /\ (z = 0 \/ z = 1 \/ z = 2)%Z)
  /\ (forall z, ~ (z = 0 \/ z = 1 \/ z = 2)%Z ->
      parse_label (PInt z) = inr "label_out_of_range"%string)
  /\ (forall s syn c, (syn, c) ∈ LABEL_SYNONYMS ->
      str_lower (str_strip s) = syn ->
      parse_label (PStr s) = inl c /\ (c = 0 \/ c = 1 \/ c = 2)%Z)
  /\ (parse_label (PStr (u"Home Win")) = inl 0%Z
      /\ parse_label (PStr (u"무승부")) = inl 1%Z
      /\ parse_label (PStr (u"2")) = inl 2%Z
      /\ parse_label (PInt 1) = inl 1%Z)
  /\ (forall s, str_lower (str_strip s) ∉ LABEL_SYNONYMS.*1 ->
      parse_label (PStr s) = inr "invalid_label"%string)
  /\ (forall lab, (forall s, lab <> PStr s) ->
      (py_int lab = None -> parse_label lab = inr "invalid_label_type"%string)
      /\ (forall y, py_int lab = Some y -> ~ (y = 0 \/ y = 1 \/ y = 2)%Z ->
          parse_label lab = inr "label_out_of_range"%string))
  /\ (forall acc d f reason,
      normalize_field d (FIELD_MAPPING !!! "features"%string) = PDict f ->
      parse_label (normalize_field d (FIELD_MAPPING !!! "label"%string))
        = inr reason ->
      let acc' := loop_body acc (PDict d) in
      invalid_reason_counts acc' !! reason
        = Some (default 0 (invalid_reason_counts acc !! reason) + 1)
      /\ (forall r, r <> reason ->
          invalid_reason_counts acc' !! r = invalid_reason_counts acc !! r)
      /\ X_list acc' = X_list acc
      /\ y_list acc' = y_list acc
      /\ valid_count acc' = valid_count acc)
  /\ (forall rows, loop_invariant (length rows) (fold_left loop_body rows acc_empty))
  /\ (forall now saved st st' rows resp,
      retrain_automated now saved st (PList rows) = (Ok resp, st') ->
      rs_received resp = rs_valid resp
      /\ rs_valid resp = length (y_list (fold_left loop_body rows acc_empty))
      /\ rs_invalid resp = Z.of_nat (histogram_total (rs_invalid_reasons resp))).
Proof.
  split.
  { intros z y. rewrite parse_label_int. case_bool_decide; split.
    - by intros [= <-].
    - by intros [-> _].
    - done.
    - by intros [_ ?]. }
  split.
  { intros z Hz. rewrite parse_label_int. by case_bool_decide. }
  split.
  { intros s syn c Hin Heq. split; [by eapply parse_label_synonym|].
    unfold LABEL_SYNONYMS in Hin.
    repeat (apply elem_of_cons in Hin as [[= -> ->]|Hin]; [lia|]).
    by apply elem_of_nil in Hin. }
  split; [by vm_compute|].
  split; [apply parse_label_unknown_string|].
  split.
  { intros lab Hs. rewrite parse_label_non_string by done. split.
    - by intros ->.
    - intros y -> Hy. case_bool_decide as Hin; [|done].
      destruct Hy. rewrite !elem_of_cons, elem_of_nil in Hin. tauto. }
  split.
  { intros acc d f reason Hf Hl acc'. subst acc'.
    rewrite (loop_body_row acc d f _ Hf eq_refl), Hl. apply reject_effect. }
  split; [apply loop_invariant_batch|].
  intros now saved st st' rows resp Hr.
  destruct (retrain_automated_ok now saved st st' rows resp Hr)
    as (-> & -> & -> & ->).
  destruct (loop_invariant_batch rows) as (HX & Hy & Hn).
  repeat split; [done|done|lia].
Qed.

End LabelParser.

(** A batch with one row per rejection reason next to the six valid rows:
    each counter is 1, none of the five rows is trained on, and the invalid
    total is 5. *)
Lemma label_parser_and_rejections_witness :
  let rows :=
    example_batch ++
    [PInt 7; PDict [(u"label", PInt 1)];
     example_row (PStr (u"maybe")); example_row (PInt 3);
     example_row PNone] in
  exists resp st',
    @retrain_automated example_runtime example_sklearn
      (u"20240102_000000") true initial_state (PList rows) = (Ok resp, st')
    /\ rs_valid resp = 6
    /\ rs_invalid resp = 5%Z
    /\ histogram_total (rs_invalid_reasons resp) = 5
    /\ rs_invalid_reasons resp !! "invalid_label"%string = Some 1
    /\ rs_invalid_reasons resp !! "label_out_of_range"%string = Some 1
    /\ rs_invalid_reasons resp !! "invalid_label_type"%string = Some 1.
Proof.
  intros rows.
  destruct (@retrain_automated example_runtime example_sklearn
              (u"20240102_000000") true initial_state (PList rows))
    as [r st'] eqn:E.
  assert (match r with Ok _ => True | HTTPError _ _ => False end) as Hok.
  { replace r with
      (fst (@retrain_automated example_runtime example_sklearn
              (u"20240102_000000") true initial_state (PList rows)))
      by (rewrite E; reflexivity).
    vm_compute. exact I. }
  destruct r as [resp|]; [clear Hok|destruct Hok].
  destruct (@label_parser_and_rejections example_runtime example_sklearn)
    as (_ & _ & _ & _ & _ & _ & _ & _ & Hbatch).
  destruct (Hbatch _ _ _ _ _ _ E) as (_ & Hvalid & Hinv).
  destruct (@retrain_automated_ok example_runtime example_sklearn _ _ _ _ _ _ E)
    as (_ & _ & Hinvalid & Hreasons).
  assert (rs_invalid resp = 5%Z) as Hfive
    by (rewrite Hinvalid; vm_compute; reflexivity).
  exists resp, st'. split; [reflexivity|].
  split; [rewrite Hvalid; vm_compute; reflexivity|].
  split; [exact Hfive|].
  split; [rewrite Hfive in Hinv; lia|].
  rewrite Hreasons. repeat split; vm_compute; reflexivity.
Defined.

(* ===================================================================== *)
(** * Vectorizer: further properties                                      *)
(* ===================================================================== *)

Lemma zero_not_nan : ~ is_NaN 0%float.
Proof. unfold is_NaN. by vm_compute. Qed.

Lemma safe_num_not_nan `{PyRuntime} (v : pyval) (default : float) :
  ~ is_NaN default -> ~ is_NaN (_safe_num v default).
Proof.
  intros Hd. unfold _safe_num.
  destruct (py_float v) as [x|]; [|done].
  destruct (PrimFloat.eqb x x) eqn:Hx; [|done].
  intros Hn. apply self_eqb_false_iff in Hn. congruence.
Qed.

(** The vector handed to the model never holds a NaN, whatever the feature
    mapping; an infinite value, on the other hand, is kept as it is. *)
Theorem vec_from_features_never_nan `{PyRuntime} (feat : pydict) :
  Forall (fun x => ~ is_NaN x) (_vec_from_features feat)
  /\ (forall k, k ∈ FEATURE_KEYS ->
      dict_get k feat = Some (PFloat infinity) ->
      infinity ∈ _vec_from_features feat).
Proof.
  split.
  - unfold _vec_from_features. apply Forall_fmap, Forall_forall.
    intros k _. simpl. apply safe_num_not_nan, zero_not_nan.
  - intros k Hk Hget. unfold _vec_from_features.
    apply list_elem_of_fmap. exists k. split; [|done].
    unfold dict_get_default. by rewrite Hget.
Qed.

Lemma vec_from_features_never_nan_witness :
  infinity ∈ @_vec_from_features example_runtime [(u"homeOsl", PFloat infinity)].
Proof.
  destruct (@vec_from_features_never_nan example_runtime
              [(u"homeOsl", PFloat infinity)]) as [_ Hinf].
  apply (Hinf (u"homeOsl")).
  - vm_compute. do 2 right. left.
  - vm_compute. reflexivity.
Defined.

(** Only the twelve declared names matter: two mappings that read the same
    under each of them ([get] reading a missing name as [None]) give the same
    vector, so extra keys are ignored and a name bound to [None] is the same
    as a missing one. *)
Theorem vec_from_features_only_declared_keys `{PyRuntime} (f1 f2 : pydict) :
  (forall k, k ∈ FEATURE_KEYS -> dict_get_default k f1 = dict_get_default k f2) ->
  _vec_from_features f1 = _vec_from_features f2.
Proof.
  intros Hsame. unfold _vec_from_features.
  apply list_fmap_ext. intros i k Hk.
  rewrite Hsame; [done|]. by eapply list_elem_of_lookup_2.
Qed.

Lemma vec_from_features_only_declared_keys_witness :
  @_vec_from_features example_runtime
    [(u"eloDiff", PInt 3); (u"referee", PStr (u"n/a"))]
  = @_vec_from_features example_runtime
    [(u"ppgDiff", PNone); (u"eloDiff", PInt 3)].
Proof.
  apply (@vec_from_features_only_declared_keys example_runtime).
  intros k Hk. unfold FEATURE_KEYS in Hk.
  repeat (apply elem_of_cons in Hk as [->|Hk]; [by vm_compute|]).
  by apply elem_of_nil in Hk.
Defined.

(* ===================================================================== *)
(** * Predictor: the model-backed path                                    *)
(* ===================================================================== *)

Section ModelPath.
Local Open Scope R_scope.

Lemma CLASS_TO_KEY_inv (c : Z) (k : outcome_key) :
  CLASS_TO_KEY c = Some k -> c = KEY_TO_CLASS k.
Proof.
  unfold CLASS_TO_KEY.
  destruct (Z.eqb_spec c 0); [by intros [= <-]|].
  destruct (Z.eqb_spec c 1); [by intros [= <-]|].
  destruct (Z.eqb_spec c 2); [by intros [= <-]|done].
Qed.

Lemma proba_get_set_ne (p : proba) (k k' : outcome_key) (x : R) :
  k <> k' -> proba_get (proba_set p k x) k' = proba_get p k'.
Proof. by destruct k, k'. Qed.

Lemma assign_probs_untouched (classes : list Z) (probs : list R) (out : proba)
    (k : outcome_key) :
  KEY_TO_CLASS k ∉ classes ->
  proba_get (assign_probs classes probs out) k = proba_get out k.
Proof.
  revert probs out. induction classes as [|cls classes IH]; intros probs out Hk.
  - by destruct probs.
  - apply not_elem_of_cons in Hk as [Hne Hk].
    destruct probs as [|x probs]; simpl; [done|].
    destruct (CLASS_TO_KEY cls) as [key|] eqn:Hcls; rewrite IH by done; [|done].
    apply proba_get_set_ne. intros ->.
    by apply CLASS_TO_KEY_inv in Hcls.
Qed.

(** A class the estimator does not know gets probability 0: when the class
    index of an outcome is not among the classes of the model (say a model
    fitted on home and draw rows only) and the mapped sum is positive, the
    returned probability of that outcome is 0. *)
Theorem extract_proba_unseen_class (model : sk_model) (vec : list R)
    (k : outcome_key) :
  let probs := predict_proba_row model vec in
  let classes := model_classes model probs in
  KEY_TO_CLASS k ∉ classes ->
  0 < proba_sum (assign_probs classes probs proba_zero) ->
  proba_get (_extract_proba_from_model model vec) k = 0.
Proof.
  intros probs classes Hk Hs.
  pose proof (assign_probs_untouched classes probs proba_zero k Hk) as Hout.
  unfold _extract_proba_from_model. fold probs. fold classes.
  destruct (Rlt_dec 0 _) as [_|Hn]; [|lra].
  destruct k; simpl in *; rewrite Hout; unfold Rdiv; ring.
Qed.

(** An estimator that exposes no class list and returns two probabilities is
    read as classes 0 and 1: away gets 0. *)
Lemma extract_proba_unseen_class_witness :
  proba_get (_extract_proba_from_model two_class_model (repeat 0 12)) away = 0.
Proof.
  apply extract_proba_unseen_class.
  - simpl. intros Hin.
    repeat (apply elem_of_cons in Hin as [Hin|Hin]; [discriminate|]).
    by apply elem_of_nil in Hin.
  - unfold proba_sum. simpl. lra.
Defined.

End ModelPath.

(* ===================================================================== *)
(** * Trainer: further properties                                         *)
(* ===================================================================== *)

Section TrainerMore.
Context `{PyRuntime} `{Sklearn}.

Lemma parse_label_class_index (lab : pyval) (y : Z) :
  parse_label lab = inl y -> class_index y.
Proof.
  unfold parse_label, class_index. destruct lab; simpl;
    try (match goal with
         | |- context [int_of_float ?f] => destruct (int_of_float f)
         end);
    repeat (case_bool_decide || case_match); try done;
    intros [= <-]; try lia;
    match goal with
    | Hin : _ ∈ _ |- _ => rewrite !elem_of_cons, elem_of_nil in Hin; tauto
    end.
Qed.

Lemma vec_well_formed (f : pydict) : well_formed_vector (_vec_from_features f).
Proof.
  split; [reflexivity|]. unfold _vec_from_features.
  apply Forall_fmap, Forall_forall. intros k _. simpl.
  apply safe_num_not_nan, zero_not_nan.
Qed.

Lemma fold_loop_body_invariant (P : loop_acc -> Prop) (rows : list pyval)
    (acc : loop_acc) :
  P acc -> (forall a row, P a -> P (loop_body a row)) ->
  P (fold_left loop_body rows acc).
Proof.
  intros Hacc Hstep. revert acc Hacc.
  induction rows as [|row rows IH]; intros acc Hacc; simpl; [done|].
  by apply IH, Hstep.
Qed.

Lemma loop_body_accept_inv (acc : loop_acc) (row : pyval) (vec : list float) (y : Z) :
  loop_body acc row = accept vec y acc ->
  valid_count (loop_body acc row) = valid_count acc + 1 ->
  exists vec' y', loop_body acc row = accept vec' y' acc
    /\ well_formed_vector vec' /\ class_index y'.
Proof.
  intros _ Hcount. unfold loop_body in *.
  destruct row; simpl in Hcount; try lia.
  destruct (normalize_field d _); simpl in Hcount; try lia.
  destruct (parse_label _) as [y'|reason] eqn:Hl; simpl in Hcount; try lia.
  eexists _, _. split; [reflexivity|].
  split; [apply vec_well_formed|by eapply parse_label_class_index].
Qed.

(** Whatever the batch, the training set collected by the row loop is well
    formed: every vector has twelve entries, none of them NaN, every label
    is 0, 1 or 2, and vectors and labels are as many. *)
Theorem training_set_well_formed (rows : list pyval) :
  let acc := fold_left loop_body rows acc_empty in
  Forall well_formed_vector (X_list acc)
  /\ Forall class_index (y_list acc)
  /\ length (X_list acc) = length (y_list acc).
Proof.
  apply (fold_loop_body_invariant
           (fun acc => Forall well_formed_vector (X_list acc)
                       /\ Forall class_index (y_list acc)
                       /\ length (X_list acc) = length (y_list acc))).
  - simpl. by repeat split.
  - intros a row (HX & Hy & Hlen).
    destruct (loop_body_cases a row) as [(vec & y & Heq)|(reason & ->)];
      [|done].
    destruct (loop_body_accept_inv a row vec y Heq) as (vec' & y' & -> & Hv & Hc).
    { by rewrite Heq. }
    simpl. rewrite !Forall_app, !length_app. simpl.
    repeat split; try done; try (by constructor). lia.
Qed.

Lemma retrain_automated_frame (now : pystr) (saved : bool) (st : server_state)
    (training_data : pyval) :
  let st' := (retrain_automated now saved st training_data).2 in
  _patterns_db st' = _patterns_db st /\ _success_db st' = _success_db st.
Proof.
  unfold retrain_automated. destruct training_data; try done.
  destruct (X_list _); [done|].
  destruct (size _ <? 2)%nat; [done|].
  destruct (py_min _); [|done].
  by destruct (fit _ _ _).
Qed.

(** retrain-automated touches the model only when it succeeds: whenever the
    answer is an error, its status is 400 or 500 and the in-memory model and
    the version string are what they were; the two pattern tables are never
    changed; and a payload that is not a list is refused with 400 before
    anything happens. *)
Theorem retrain_error_keeps_model (now : pystr) (saved : bool) (st : server_state)
    (training_data : pyval) :
  let '(r, st') := retrain_automated now saved st training_data in
  _patterns_db st' = _patterns_db st
  /\ _success_db st' = _success_db st
  /\ (forall code detail, r = HTTPError code detail ->
      (code = 400 \/ code = 500)%Z
      /\ _model st' = _model st
      /\ _model_version st' = _model_version st)
  /\ ((forall rows, training_data <> PList rows) ->
      r = HTTPError 400 TrainingDataMustBeArray /\ st' = st).
Proof.
  pose proof (retrain_automated_frame now saved st training_data) as [Hp Hs].
  destruct (retrain_automated now saved st training_data) as [r st'] eqn:E.
  simpl in Hp, Hs. split; [done|]. split; [done|].
  unfold retrain_automated in E. split.
  - intros code detail ->.
    destruct training_data as [| | | | |rows|];
      try (simplify_eq; split; [by left|done]).
    destruct (X_list (fold_left loop_body rows acc_empty));
      [simplify_eq; split; [by left|done]|].
    destruct (size _ <? 2)%nat; [simplify_eq; split; [by left|done]|].
    destruct (py_min _); [|simplify_eq; split; [by right|done]].
    destruct (fit _ _ _); [done|simplify_eq; split; [by right|done]].
  - intros Hl. destruct training_data as [| | | | |rows|];
      try (by simplify_eq).
    by destruct (Hl rows).
Qed.

End TrainerMore.

Lemma retrain_error_keeps_model_witness :
  let st := set_model initial_state example_model (u"sklr-plain-logreg-1") in
  @retrain_automated example_runtime example_sklearn (u"20240102_000000") true
    st (PDict [(u"rows", PList [])])
  = (HTTPError 400 TrainingDataMustBeArray, st).
Proof.
  intros st.
  pose proof (@retrain_error_keeps_model example_runtime example_sklearn
                (u"20240102_000000") true st (PDict [(u"rows", PList [])])) as Hk.
  destruct (retrain_automated _ _ _ _) as [r st'].
  destruct Hk as (_ & _ & _ & Hbad).
  destruct Hbad as [-> ->]; [discriminate|reflexivity].
Defined.


Section TrainerSuccess.
Context `{PyRuntime} `{Sklearn}.

Lemma counter_total_insert (c : Z) (n : nat) (m : gmap Z nat) :
  m !! c = None -> counter_total (<[c := n]> m) = n + counter_total m.
Proof.
  intros Hc. unfold counter_total.
  rewrite map_fold_insert_L; [done| |done]. intros; lia.
Qed.

Lemma counter_total_bump (c : Z) (m : gmap Z nat) :
  counter_total (bump c m) = S (counter_total m).
Proof.
  unfold bump. destruct (m !! c) as [n|] eqn:Hc; simpl.
  - rewrite <- (insert_delete_eq m), counter_total_insert
      by apply lookup_delete_eq.
    rewrite <- (insert_id m c n) at 2 by done.
    rewrite <- (insert_delete_eq m), counter_total_insert
      by apply lookup_delete_eq.
    lia.
  - by rewrite counter_total_insert.
Qed.

Lemma counter_total_fold (ys : list Z) (m : gmap Z nat) :
  counter_total (fold_left (fun counts v => bump v counts) ys m)
  = counter_total m + length ys.
Proof.
  revert m. induction ys as [|y ys IH]; intros m; simpl; [lia|].
  rewrite IH, counter_total_bump. lia.
Qed.

Lemma counter_total_Counter (ys : list Z) : counter_total (Counter ys) = length ys.
Proof.
  unfold Counter. rewrite counter_total_fold.
  unfold counter_total. by rewrite map_fold_empty.
Qed.

Lemma two_keys_two_classes (ys : list Z) :
  2 <= size (Counter ys) -> exists c1 c2, c1 ∈ ys /\ c2 ∈ ys /\ c1 <> c2.
Proof.
  intros Hsize.
  destruct ys as [|c ys].
  { assert (size (Counter []) < 2); [|lia].
    apply Counter_size_one_class. intros c1 c2 Hc1. by apply elem_of_nil in Hc1. }
  destruct (decide (Forall (fun y => y = c) ys)) as [Hall|Hex].
  - assert (size (Counter (c :: ys)) < 2); [|lia].
    apply Counter_size_one_class. intros c1 c2 Hc1 Hc2.
    rewrite Forall_forall in Hall.
    apply elem_of_cons in Hc1 as [->|Hc1]; apply elem_of_cons in Hc2 as [->|Hc2];
      try done; rewrite ?(Hall _ Hc1), ?(Hall _ Hc2); done.
  - apply not_Forall_Exists in Hex; [|apply _].
    apply Exists_exists in Hex as (c2 & Hc2 & Hne).
    exists c2, c. repeat split; [by right|by left|done].
Qed.

Lemma labels_class_index (rows : list pyval) :
  Forall class_index (y_list (fold_left loop_body rows acc_empty)).
Proof.
  apply (fold_loop_body_invariant (fun acc => Forall class_index (y_list acc)));
    [by simpl|].
  intros a row Hy. unfold loop_body.
  destruct row; try done. destruct (normalize_field d _); try done.
  destruct (parse_label _) as [y|reason] eqn:Hl; [|done].
  simpl. apply Forall_app. split; [done|].
  constructor; [by eapply parse_label_class_index|done].
Qed.

Lemma retrain_automated_ok_inv (now : pystr) (saved : bool) (st st' : server_state)
    (rows : list pyval) (resp : retrain_summary) :
  retrain_automated now saved st (PList rows) = (Ok resp, st') ->
  let acc := fold_left loop_body rows acc_empty in
  exists m clf,
    2 <= size (Counter (y_list acc))
    /\ fit (choose_plan m (length (y_list acc))) (X_list acc) (y_list acc) = Some clf
    /\ rs_class_counts resp = Counter (y_list acc)
    /\ rs_valid resp = valid_count acc
    /\ rs_mode resp = mode_name (choose_plan m (length (y_list acc)))
    /\ rs_new_model_version resp
       = version_tag (choose_plan m (length (y_list acc))) now
    /\ rs_saved resp = saved
    /\ st' = set_model (_ensure_sklearn st) clf (rs_new_model_version resp).
Proof.
  intros Hr acc. unfold retrain_automated in Hr. fold acc in Hr.
  destruct (X_list acc) eqn:HX; [done|].
  destruct (Nat.ltb_spec (size (Counter (y_list acc))) 2); [done|].
  destruct (py_min _) as [m|]; [|done].
  destruct (fit _ _ _) as [clf|] eqn:Hfit; [|done].
  injection Hr as <- <-. by exists m, clf.
Qed.

(** A successful retrain, read backwards: the batch had valid rows of at
    least two different classes; the stored model is the estimator that
    [fit] returned for the collected training set, under a version tag
    [sklr-<mode>-<timestamp>] whose mode is [calibrated] or [plain-logreg]
    and which the answer reports; from then on the status endpoint shows a
    loaded model with that version. *)
Theorem retrain_success_effect (now : pystr) (saved : bool) (st st' : server_state)
    (rows : list pyval) (resp : retrain_summary) :
  retrain_automated now saved st (PList rows) = (Ok resp, st') ->
  let acc := fold_left loop_body rows acc_empty in
  let ys := y_list acc in
  (exists c1 c2, c1 ∈ ys /\ c2 ∈ ys /\ c1 <> c2)
  /\ 2 <= rs_valid resp
  /\ (rs_mode resp = u"calibrated" \/ rs_mode resp = u"plain-logreg")
  /\ rs_new_model_version resp = u"sklr-" ++ rs_mode resp ++ u"-" ++ now
  /\ (exists plan clf,
        fit plan (X_list acc) ys = Some clf
        /\ _model st' = Some clf
        /\ rs_mode resp = mode_name plan)
  /\ _model_version st' = rs_new_model_version resp
  /\ rs_saved resp = saved
  /\ (forall later,
      ss_model_loaded (scheduler_status later st') = true
      /\ ss_model_version (scheduler_status later st') = rs_new_model_version resp).
Proof.
  intros Hr acc ys.
  destruct (retrain_automated_ok_inv _ _ _ _ _ _ Hr)
    as (m & clf & Hsize & Hfit & Hcounts & Hvalid & Hmode & Hver & Hsaved & ->).
  fold acc in Hsize, Hfit, Hmode, Hver, Hvalid. fold ys in Hsize, Hfit, Hmode, Hver.
  destruct (two_keys_two_classes ys Hsize) as (c1 & c2 & Hc1 & Hc2 & Hne).
  split; [by exists c1, c2|].
  split.
  { destruct (loop_invariant_batch rows) as (_ & Hy & _).
    fold acc in Hy. fold ys in Hy.
    rewrite Hvalid, <- Hy.
    destruct ys as [|a [|b ys']]; simpl; try lia.
    - by apply elem_of_nil in Hc1.
    - apply list_elem_of_singleton in Hc1, Hc2. congruence. }
  split.
  { rewrite Hmode. destruct (choose_plan _ _); [by left|by right]. }
  split; [by rewrite Hver, Hmode|].
  split; [by exists (choose_plan m (length ys)), clf|].
  split; [done|]. split; [done|]. by intros later.
Qed.

(** The class histogram of a successful answer: a class is listed exactly
    when some valid row has it, with the number of such rows; only 0, 1 and
    2 can be listed, at least two of them are, and the numbers add up to the
    [valid] count. *)
Theorem class_counts_of_answer (now : pystr) (saved : bool) (st st' : server_state)
    (rows : list pyval) (resp : retrain_summary) :
  retrain_automated now saved st (PList rows) = (Ok resp, st') ->
  let ys := y_list (fold_left loop_body rows acc_empty) in
  (forall c n, rs_class_counts resp !! c = Some n <-> c ∈ ys /\ occurrences c ys = n)
  /\ (forall c, is_Some (rs_class_counts resp !! c) -> class_index c)
  /\ 2 <= size (rs_class_counts resp) <= 3
  /\ counter_total (rs_class_counts resp) = rs_valid resp.
Proof.
  intros Hr ys.
  destruct (retrain_automated_ok_inv _ _ _ _ _ _ Hr)
    as (m & clf & Hsize & _ & -> & Hvalid & _).
  fold ys in Hsize |- *.
  pose proof (labels_class_index rows) as Hcls. fold ys in Hcls.
  assert (forall c, is_Some (Counter ys !! c) -> class_index c) as Hdom.
  { intros c [n Hn]. apply Counter_lookup_Some in Hn as [Hc _].
    rewrite Forall_forall in Hcls. by apply Hcls. }
  split; [intros c n; apply Counter_lookup_Some|].
  split; [done|]. split.
  - split; [done|]. rewrite <- size_dom.
    assert (dom (Counter ys) ⊆ ({[0; 1; 2]} : gset Z))%Z as Hsub.
    { intros c Hc%elem_of_dom. apply Hdom in Hc as [->|[->| ->]]; set_solver. }
    apply subseteq_size in Hsub. etrans; [exact Hsub|]. by vm_compute.
  - rewrite counter_total_Counter, Hvalid.
    destruct (loop_invariant_batch rows) as (_ & Hy & _). exact Hy.
Qed.

End TrainerSuccess.

Lemma retrain_success_effect_witness :
  exists resp st',
    @retrain_automated example_runtime example_sklearn (u"20240102_000000") true
      initial_state (PList example_batch) = (Ok resp, st')
    /\ rs_new_model_version resp = u"sklr-calibrated-20240102_000000"
    /\ _model st' = Some example_model
    /\ ss_model_loaded (scheduler_status (u"20240103_000000") st') = true.
Proof.
  destruct (@retrain_automated example_runtime example_sklearn
              (u"20240102_000000") true initial_state (PList example_batch))
    as [r st'] eqn:E.
  assert (match r with Ok resp => rs_mode resp = u"calibrated"
                  | HTTPError _ _ => False end) as Hok.
  { replace r with
      (fst (@retrain_automated example_runtime example_sklearn
              (u"20240102_000000") true initial_state (PList example_batch)))
      by (rewrite E; reflexivity).
    vm_compute. reflexivity. }
  destruct r as [resp|]; [|destruct Hok].
  destruct (@retrain_success_effect example_runtime example_sklearn
              _ _ _ _ _ _ E)
    as (_ & _ & _ & Hver & (plan & clf & Hfit & Hmodel & _) & _ & _ & Hlater).
  exists resp, st'. split; [reflexivity|].
  split; [rewrite Hver, Hok; reflexivity|].
  split; [|apply Hlater].
  rewrite Hmodel. cbn [fit example_sklearn] in Hfit. symmetry. exact Hfit.
Defined.

Lemma class_counts_of_answer_witness :
  exists resp st',
    @retrain_automated example_runtime example_sklearn (u"20240102_000000") true
      initial_state (PList example_batch) = (Ok resp, st')
    /\ rs_class_counts resp !! 0%Z = Some 2
    /\ rs_class_counts resp !! 1%Z = Some 4
    /\ rs_class_counts resp !! 2%Z = None.
Proof.
  destruct (@retrain_automated example_runtime example_sklearn
              (u"20240102_000000") true initial_state (PList example_batch))
    as [r st'] eqn:E.
  assert (match r with Ok _ => True | HTTPError _ _ => False end) as Hok.
  { replace r with
      (fst (@retrain_automated example_runtime example_sklearn
              (u"20240102_000000") true initial_state (PList example_batch)))
      by (rewrite E; reflexivity).
    vm_compute. exact I. }
  destruct r as [resp|]; [clear Hok|destruct Hok].
  destruct (@class_counts_of_answer example_runtime example_sklearn
              _ _ _ _ _ _ E) as (Hcounts & _).
  assert (y_list (@fold_left _ _ (@loop_body example_runtime) example_batch acc_empty)
          = [0; 0; 1; 1; 1; 1]%Z) as Hys by (vm_compute; reflexivity).
  rewrite Hys in Hcounts.
  exists resp, st'. split; [reflexivity|].
  split; [|split].
  - apply Hcounts. split; [by left|by vm_compute].
  - apply Hcounts. split; [do 2 right; by left|by vm_compute].
  - destruct (rs_class_counts resp !! 2%Z) as [n|] eqn:Hn; [|done].
    apply Hcounts in Hn as [Hin _].
    repeat (apply elem_of_cons in Hin as [Hin|Hin]; [discriminate|]).
    by apply elem_of_nil in Hin.
Defined.

(* ===================================================================== *)
(** * Pattern tables: further properties                                  *)
(* ===================================================================== *)

Lemma sync_patterns_db_unfold (now : pystr) (st : server_state) (data : pydict) :
  sync_patterns_db now st data =
    match normalize_field data (FIELD_MAPPING !!! "warningRules"%string) with
    | PNone => (HTTPError 400 MissingRules, st)
    | PDict [] =>
        (Ok {| sync_ok := true; sync_warning := Some (u"Empty warningRules");
               stored_patterns := 0; sync_timestamp := None |}, st)
    | PDict rules =>
        (if forallb (log_line_ok (u"missRate")) (take 3 rules)
         then Ok {| sync_ok := true; sync_warning := None;
                    stored_patterns := length rules;
                    sync_timestamp := Some now |}
         else HTTPError 500 UnhandledException,
         set_patterns_db st rules)
    | _ => (HTTPError 400 RulesMustBeDict, st)
    end.
Proof.
  unfold sync_patterns_db.
  destruct (normalize_field data _) as [| | | | | |[|e rules]]; try done.
  simpl (length _ =? 0)%nat. cbv iota. by destruct (forallb _ _).
Qed.

Lemma sync_success_db_unfold (now : pystr) (st : server_state) (data : pydict) :
  sync_success_db now st data =
    match normalize_field data (FIELD_MAPPING !!! "successRules"%string) with
    | PNone => (HTTPError 400 MissingRules, st)
    | PDict [] =>
        (Ok {| sync_ok := true; sync_warning := Some (u"Empty successRules");
               stored_patterns := 0; sync_timestamp := None |}, st)
    | PDict rules =>
        (if forallb (log_line_ok (u"successRate")) (take 3 rules)
         then Ok {| sync_ok := true; sync_warning := None;
                    stored_patterns := length rules;
                    sync_timestamp := Some now |}
         else HTTPError 500 UnhandledException,
         set_success_db st rules)
    | _ => (HTTPError 400 RulesMustBeDict, st)
    end.
Proof.
  unfold sync_success_db.
  destruct (normalize_field data _) as [| | | | | |[|e rules]]; try done.
  simpl (length _ =? 0)%nat. cbv iota. by destruct (forallb _ _).
Qed.

(** The two sync endpoints refuse with 400, and change nothing, exactly when
    the rules (under their accepted names) are missing or null, or are not a
    dict; and sync-patterns-db never changes the success table, the model or
    its version, as sync-success-db never changes the miss table, the model
    or its version. *)
Theorem sync_rejects_malformed_rules (now : pystr) (st : server_state) (data : pydict) :
  let warning_rules := normalize_field data (FIELD_MAPPING !!! "warningRules"%string) in
  let success_rules := normalize_field data (FIELD_MAPPING !!! "successRules"%string) in
  let p := sync_patterns_db now st data in
  let s := sync_success_db now st data in
  (status_code_of p.1 = 400%Z <-> forall rules, warning_rules <> PDict rules)
  /\ (status_code_of s.1 = 400%Z <-> forall rules, success_rules <> PDict rules)
  /\ (status_code_of p.1 = 400%Z -> p.2 = st)
  /\ (status_code_of s.1 = 400%Z -> s.2 = st)
  /\ (_success_db p.2 = _success_db st /\ _model p.2 = _model st
      /\ _model_version p.2 = _model_version st)
  /\ (_patterns_db s.2 = _patterns_db st /\ _model s.2 = _model st
      /\ _model_version s.2 = _model_version st).
Proof.
  intros warning_rules success_rules p s. subst p s.
  rewrite sync_patterns_db_unfold, sync_success_db_unfold.
  fold warning_rules. fold success_rules.
  assert (forall (A : Type) (b : bool) (x : A), status_code_of
            (if b then Ok x else HTTPError 500 UnhandledException) <> 400%Z)
    as Hne by (by intros A [] x).
  split; [|split; [|split; [|split; [|split]]]].
  - destruct warning_rules as [| | | | | |[|e rules]]; simpl;
      split; try done; try (intros Hn; by edestruct Hn);
      intros Hn; by apply Hne in Hn.
  - destruct success_rules as [| | | | | |[|e rules]]; simpl;
      split; try done; try (intros Hn; by edestruct Hn);
      intros Hn; by apply Hne in Hn.
  - destruct warning_rules as [| | | | | |[|e rules]]; simpl; try done.
    intros Hn; by apply Hne in Hn.
  - destruct success_rules as [| | | | | |[|e rules]]; simpl; try done.
    intros Hn; by apply Hne in Hn.
  - by destruct warning_rules as [| | | | | |[|e rules]].
  - by destruct success_rules as [| | | | | |[|e rules]].
Qed.

(** A request without rules, and one whose rules are a list, against a
    server that holds a table. *)
Lemma sync_rejects_malformed_rules_witness :
  sync_patterns_db (u"20240101_000000") state_with_table [(u"rules", PDict [])]
    = (HTTPError 400 MissingRules, state_with_table)
  /\ sync_success_db (u"20240101_000000") state_with_table
       [(u"successRules", PNone); (u"success", PList [])]
    = (HTTPError 400 RulesMustBeDict, state_with_table).
Proof.
  destruct (sync_rejects_malformed_rules (u"20240101_000000") state_with_table
              [(u"rules", PDict [])]) as (Hiff1 & _ & Hst1 & _).
  destruct (sync_rejects_malformed_rules (u"20240101_000000") state_with_table
              [(u"successRules", PNone); (u"success", PList [])])
    as (_ & Hiff2 & _ & Hst2 & _).
  split.
  - apply injective_projections.
    + vm_compute. reflexivity.
    + apply Hst1, Hiff1. intros rules. vm_compute. discriminate.
  - apply injective_projections.
    + vm_compute. reflexivity.
    + apply Hst2, Hiff2. intros rules. vm_compute. discriminate.
Defined.

Lemma Exists_forallb_false {A} (f : A -> bool) (l : list A) :
  Exists (fun x => f x = false) l -> forallb f l = false.
Proof.
  induction 1 as [x l Hx|x l _ IH]; simpl.
  - by rewrite Hx.
  - rewrite IH. by destruct (f x).
Qed.

(** sync-patterns-db stores before it logs: when the rules are a dict and
    one of its first three entries is not a dict, or has a [missRate] that
    the percent format rejects, the answer is a 500, and the stored table
    has been replaced by the new rules all the same; nothing else in the
    state has changed. *)
Theorem sync_patterns_db_fails_after_storing
    (now : pystr) (st : server_state) (data rules : pydict) :
  normalize_field data (FIELD_MAPPING !!! "warningRules"%string) = PDict rules ->
  Exists (fun entry => log_line_ok (u"missRate") entry = false) (take 3 rules) ->
  let p := sync_patterns_db now st data in
  status_code_of p.1 = 500%Z
  /\ _patterns_db p.2 = rules
  /\ _success_db p.2 = _success_db st
  /\ _model p.2 = _model st
  /\ _model_version p.2 = _model_version st.
Proof.
  intros Hn Hex p. subst p. rewrite sync_patterns_db_unfold, Hn.
  destruct rules as [|e rules]; [by apply Exists_nil in Hex|].
  by rewrite (Exists_forallb_false _ _ Hex).
Qed.

Lemma sync_patterns_db_fails_after_storing_witness :
  let p := sync_patterns_db (u"20240101_000000") state_with_table
             [(u"warningRules",
               PDict [(u"derby", PDict [(u"missRate", PStr (u"high"))])])] in
  status_code_of p.1 = 500%Z
  /\ _patterns_db p.2 = [(u"derby", PDict [(u"missRate", PStr (u"high"))])].
Proof.
  destruct (sync_patterns_db_fails_after_storing (u"20240101_000000")
              state_with_table
              [(u"warningRules",
                PDict [(u"derby", PDict [(u"missRate", PStr (u"high"))])])]
              [(u"derby", PDict [(u"missRate", PStr (u"high"))])])
    as (Hcode & Htable & _).
  - vm_compute. reflexivity.
  - apply Exists_cons_hd. vm_compute. reflexivity.
  - intros p. subst p. split; [exact Hcode|exact Htable].
Defined.

(** What was synced is what is fetched: after a sync-patterns-db that
    answers ok without a warning, fetch-patterns-db returns exactly the rules
    of the request, and its count, like the one of the status endpoint, is
    the [stored_patterns] of the answer.  An ok answer with the
    empty-rules warning reports 0 and leaves the state as it was, so the
    count it reports need not be the count that is fetched. *)
Theorem sync_then_fetch (now later : pystr) (st st' : server_state)
    (data : pydict) (resp : sync_response) :
  sync_patterns_db now st data = (Ok resp, st') ->
  (sync_warning resp = None ->
   normalize_field data (FIELD_MAPPING !!! "warningRules"%string)
     = PDict (fr_warningRules (fetch_patterns_db later st'))
   /\ fr_patterns_count (fetch_patterns_db later st') = stored_patterns resp
   /\ ss_patterns_count (scheduler_status later st') = stored_patterns resp
   /\ 0 < stored_patterns resp
   /\ fr_successRules (fetch_patterns_db later st') = _success_db st)
  /\ (sync_warning resp <> None ->
      st' = st /\ stored_patterns resp = 0
      /\ fr_warningRules (fetch_patterns_db later st') = _patterns_db st).
Proof.
  rewrite sync_patterns_db_unfold.
  destruct (normalize_field data _) as [| | | | | |[|e rules]]; try done.
  - intros [= <- <-]. by split.
  - destruct (forallb _ _); [|done]. intros [= <- <-].
    split; [|done]. intros _. cbn. repeat split; lia.
Qed.

Lemma sync_then_fetch_witness :
  exists resp st',
    sync_patterns_db (u"20240101_000000") initial_state
      [(u"patterns", PDict stored_table)] = (Ok resp, st')
    /\ fr_warningRules (fetch_patterns_db (u"20240101_000001") st') = stored_table
    /\ fr_patterns_count (fetch_patterns_db (u"20240101_000001") st') = 1.
Proof.
  destruct (sync_patterns_db (u"20240101_000000") initial_state
              [(u"patterns", PDict stored_table)]) as [r st'] eqn:E.
  assert (match r with
          | Ok resp => sync_warning resp = None /\ stored_patterns resp = 1
          | HTTPError _ _ => False
          end) as Hok.
  { replace r with (sync_patterns_db (u"20240101_000000") initial_state
                      [(u"patterns", PDict stored_table)]).1
      by (by rewrite E).
    vm_compute. by split. }
  destruct r as [resp|]; [|destruct Hok]. destruct Hok as [Hw Hn].
  destruct (sync_then_fetch _ (u"20240101_000001") _ _ _ _ E) as [Hfetch _].
  destruct (Hfetch Hw) as (Hrules & Hcount & _).
  exists resp, st'. split; [reflexivity|]. split; [|by rewrite Hcount].
  assert (normalize_field [(u"patterns", PDict stored_table)]
            (FIELD_MAPPING !!! "warningRules"%string) = PDict stored_table)
    as Hnf by (vm_compute; reflexivity).
  rewrite Hnf in Hrules. injection Hrules as Hr. symmetry. exact Hr.
Defined.


Lemma sync_patterns_db_state (now : pystr) (st : server_state) (data : pydict) :
  (sync_patterns_db now st data).2 =
    match normalize_field data (FIELD_MAPPING !!! "warningRules"%string) with
    | PDict (e :: rules) => set_patterns_db st (e :: rules)
    | _ => st
    end.
Proof.
  rewrite sync_patterns_db_unfold.
  by destruct (normalize_field data _) as [| | | | | |[|e rules]].
Qed.

Lemma sync_success_db_state (now : pystr) (st : server_state) (data : pydict) :
  (sync_success_db now st data).2 =
    match normalize_field data (FIELD_MAPPING !!! "successRules"%string) with
    | PDict (e :: rules) => set_success_db st (e :: rules)
    | _ => st
    end.
Proof.
  rewrite sync_success_db_unfold.
  by destruct (normalize_field data _) as [| | | | | |[|e rules]].
Qed.

(** The two sync endpoints are independent: the answer of either depends on
    the request only, not on the state; applied in either order they leave
    the same state; and repeating a sync changes nothing more. *)
Theorem sync_endpoints_commute (n1 n2 : pystr) (st st0 : server_state)
    (d1 d2 : pydict) :
  (sync_patterns_db n1 st d1).1 = (sync_patterns_db n1 st0 d1).1
  /\ (sync_success_db n2 st d2).1 = (sync_success_db n2 st0 d2).1
  /\ (sync_success_db n2 (sync_patterns_db n1 st d1).2 d2).2
     = (sync_patterns_db n1 (sync_success_db n2 st d2).2 d1).2
  /\ (sync_patterns_db n2 (sync_patterns_db n1 st d1).2 d1).2
     = (sync_patterns_db n1 st d1).2.
Proof.
  split; [|split; [|split]].
  - rewrite !sync_patterns_db_unfold.
    by destruct (normalize_field d1 _) as [| | | | | |[|e1 r1]].
  - rewrite !sync_success_db_unfold.
    by destruct (normalize_field d2 _) as [| | | | | |[|e2 r2]].
  - rewrite !sync_patterns_db_state, !sync_success_db_state.
    destruct (normalize_field d1 _) as [| | | | | |[|e1 r1]];
      destruct (normalize_field d2 _) as [| | | | | |[|e2 r2]]; reflexivity.
  - rewrite !sync_patterns_db_state.
    destruct (normalize_field d1 _) as [| | | | | |[|e1 r1]]; reflexivity.
Qed.

(* ===================================================================== *)
(** * The Flask service: the file store                                   *)
(* ===================================================================== *)

Section FileStore.
Import PatternStore.

Lemma dict_get_truthy (k : pystr) (d : pydict) (v : pyval) :
  dict_get k d = Some v ->
  py_truthy (PDict d) = true /\ str_in_value k (PDict d) = Some true.
Proof.
  intros Hk. split.
  - by destruct d.
  - unfold str_in_value, dict_contains. by rewrite Hk.
Qed.

Lemma upload_patterns_dict (now : pystr) (s : store) (d : pydict) (patterns : pyval) :
  dict_get (u"patterns") d = Some patterns ->
  upload_patterns now s (PDict d) =
    (match PatternSync.py_len patterns with
     | Some n => UploadOk n (default (PStr INITIAL_DATA_model_version)
                               (dict_get (u"version") d))
     | None => UploadError
     end,
     save_version
       (PDict [(u"version", default (PStr INITIAL_DATA_model_version)
                              (dict_get (u"version") d));
               (u"timestamp", default (PStr now) (dict_get (u"timestamp") d))])
       (save_patterns patterns s)).
Proof.
  intros Hp. destruct (dict_get_truthy _ _ _ Hp) as [Ht Hin].
  unfold upload_patterns. rewrite Ht, Hin. cbn [negb]. cbv zeta.
  rewrite Hp. cbn [default from_option].
  change (Datatypes.id patterns) with patterns.
  by destruct (PatternSync.py_len patterns).
Qed.

(** What is uploaded is what is served: when the body is an object that
    UTF-8 can encode (no string or key with a surrogate code point, so that
    the two files can be written) and whose [patterns] value has a length (a
    list, say), the upload answers with that length as count and with the
    body's version (1.0.0 when it has none), and from then on the download
    returns exactly these patterns and that version, and the pattern listing
    these patterns and that count. *)
Theorem upload_then_download (now later : pystr) (s : store) (d : pydict)
    (patterns : pyval) (n : nat) :
  utf8_encodable (PDict d) = true ->
  dict_get (u"patterns") d = Some patterns ->
  PatternSync.py_len patterns = Some n ->
  let version := default (PStr INITIAL_DATA_model_version) (dict_get (u"version") d) in
  let s' := (upload_patterns now s (PDict d)).2 in
  (upload_patterns now s (PDict d)).1 = UploadOk n version
  /\ download_patterns later s' = DownloadOk patterns version
  /\ get_all_patterns s' = ListOk n patterns.
Proof.
  intros _ Hp Hn version s'. subst s'.
  rewrite (upload_patterns_dict now s d patterns Hp), Hn. cbn [fst snd].
  split; [done|]. split.
  - unfold download_patterns, load_version, version_of.
    cbn [version_file patterns_file save_version save_patterns
         PatternSync.load_patterns dict_get].
    by rewrite decide_True.
  - unfold get_all_patterns.
    cbn [patterns_file save_version save_patterns PatternSync.load_patterns].
    by rewrite Hn.
Qed.

(** The upload refuses a body with 400 exactly when the body is falsy (null,
    an empty object, ...) or does not contain [patterns]; and whenever the
    body is not an object, or is refused, the two files stay as they were. *)
Theorem upload_refused_keeps_files (now : pystr) (s : store) (data : pyval) :
  ((upload_patterns now s data).1 = UploadBadRequest <->
   py_truthy data = false \/ str_in_value (u"patterns") data = Some false)
  /\ ((upload_patterns now s data).1 = UploadBadRequest ->
      (upload_patterns now s data).2 = s)
  /\ ((forall d, data <> PDict d) ->
      (upload_patterns now s data).2 = s
      /\ forall n v, (upload_patterns now s data).1 <> UploadOk n v).
Proof.
  unfold upload_patterns.
  destruct (py_truthy data) eqn:Ht; cbn [negb].
  - destruct (str_in_value _ data) as [[|]|] eqn:Hin; cbn [fst snd].
    + destruct data as [| | | | | |d]; cbn [fst snd];
        try (split; [split; [done|by intros [|]]|];
             split; [done|]; intros _; by split).
      destruct (PatternSync.py_len _); cbn [fst snd];
        (split; [split; [done|by intros [|]]|]; split; [done|];
         intros Hd; by destruct (Hd d)).
    + split; [split; [by right|done]|]. split; [done|]. intros _. by split.
    + split; [split; [done|by intros [|]]|]. split; [done|]. intros _. by split.
  - cbn [fst snd]. split; [split; [by left|done]|]. split; [done|].
    intros _. by split.
Qed.

(** The upload writes before it validates: when [patterns] is bound to a
    value without a length (a number, null, ...), the answer is a 500, yet
    the patterns file now holds that value; from then on the pattern listing
    and every single-pattern lookup answer 500 too. *)
Theorem upload_stores_before_validating `{PyRuntime} (now : pystr) (s : store)
    (d : pydict) (patterns : pyval) :
  dict_get (u"patterns") d = Some patterns ->
  PatternSync.py_len patterns = None ->
  let s' := (upload_patterns now s (PDict d)).2 in
  (upload_patterns now s (PDict d)).1 = UploadError
  /\ patterns_file s' = Some patterns
  /\ get_all_patterns s' = ListError
  /\ get_status now s' = None
  /\ forall pattern_id,
       PatternSync.get_pattern (patterns_file s') pattern_id
       = PatternSync.PatternError.
Proof.
  intros Hp Hn s'. subst s'.
  rewrite (upload_patterns_dict now s d patterns Hp), Hn. cbn [fst snd].
  split; [done|]. split; [done|]. split.
  { unfold get_all_patterns.
    cbn [patterns_file save_version save_patterns PatternSync.load_patterns].
    by rewrite Hn. }
  split.
  { unfold get_status. cbn [patterns_file save_version save_patterns
                            PatternSync.load_patterns].
    rewrite Hn. by destruct (version_of _). }
  intros pattern_id. unfold PatternSync.get_pattern.
  cbn [patterns_file save_version save_patterns PatternSync.load_patterns].
  rewrite Hn. by destruct (int_of_str pattern_id).
Qed.

Lemma count_status_disjoint (a b : pystr) (l : list pyval) (n m : nat) :
  a <> b ->
  count_status a l = Some n -> count_status b l = Some m ->
  n + m <= length l.
Proof.
  intros Hab. revert n m. induction l as [|p l IH]; intros n m; simpl.
  - intros [= <-] [= <-]. lia.
  - destruct (has_status a p) as [ba|] eqn:Ha; [|done].
    destruct (count_status a l) as [n'|]; [|done].
    destruct (has_status b p) as [bb|] eqn:Hb; [|done].
    destruct (count_status b l) as [m'|]; [|done].
    intros [= <-] [= <-]. specialize (IH n' m' eq_refl eq_refl).
    destruct ba, bb; try lia.
    unfold has_status in Ha, Hb. destruct p; try done.
    destruct (dict_get _ d) as [[]|]; try done.
    injection Ha as Ha. injection Hb as Hb.
    apply bool_decide_eq_true in Ha, Hb. congruence.
Qed.

Lemma count_status_non_dict (a : pystr) (l : list pyval) :
  Exists (fun p => forall d, p <> PDict d) l -> count_status a l = None.
Proof.
  induction 1 as [p l Hp|p l _ IH]; simpl.
  - destruct p; try done. by destruct (Hp d).
  - rewrite IH. by destruct (has_status _ p).
Qed.

Lemma py_iter_length (v : pyval) (n : nat) (entries : list pyval) :
  PatternSync.py_len v = Some n -> py_iter v = Some entries -> length entries = n.
Proof.
  destruct v; simpl; try done; intros [= <-] [= <-];
    by rewrite ?length_map.
Qed.

(** In the status answer the success and miss counts never exceed the total:
    they count different patterns, and an entry with another status, or with
    none, is in neither.  A stored entry that is not an object makes the
    endpoint fail instead. *)
Theorem get_status_counts (now : pystr) (s : store) :
  (forall c, get_status now s = Some c ->
     sc_success_count c + sc_miss_count c <= sc_patterns_count c)
  /\ (forall l, PatternSync.load_patterns (patterns_file s) = PList l ->
      Exists (fun p => forall d, p <> PDict d) l ->
      get_status now s = None).
Proof.
  split.
  - intros c. unfold get_status.
    destruct (version_of _) as [v|]; [|done].
    destruct (PatternSync.py_len _) as [n|] eqn:Hn; [|done].
    destruct (py_iter _) as [entries|] eqn:He; [|done].
    destruct (count_status (u"success") entries) as [ns|] eqn:Hs; [|done].
    destruct (count_status (u"miss") entries) as [nm|] eqn:Hm; [|done].
    intros [= <-]. cbn [sc_success_count sc_miss_count sc_patterns_count].
    rewrite <- (py_iter_length _ _ _ Hn He).
    eapply count_status_disjoint; [|done..]. by vm_compute.
  - intros l Hl Hex. unfold get_status. rewrite Hl.
    destruct (version_of _); [|done]. cbn [PatternSync.py_len py_iter].
    by rewrite count_status_non_dict.
Qed.

(** Reset makes the store forget whatever it held: after it the listing
    shows the ten initial patterns, the download returns them with version
    1.0.0, the status counts are 10, 5 and 5, and resetting again changes
    nothing but the timestamp. *)
Theorem reset_restores_initial_data (now later : pystr) (s : store) :
  let s' := reset_data now s in
  get_all_patterns s' = ListOk 10 PatternSync.INITIAL_DATA_patterns
  /\ download_patterns later s'
     = DownloadOk PatternSync.INITIAL_DATA_patterns (PStr (u"1.0.0"))
  /\ get_status later s'
     = Some {| sc_model_version := PStr (u"1.0.0"); sc_patterns_count := 10;
               sc_success_count := 5; sc_miss_count := 5 |}
  /\ reset_data later s' = reset_data later s.
Proof.
  intros s'. subst s'. repeat split; by vm_compute.
Qed.

End FileStore.

Section PatternLookup.
Context `{PyRuntime}.

Lemma seq_index_nonneg {A} (l : list A) (i : Z) :
  (0 <= i)%Z -> PatternSync.seq_index l i = l !! Z.to_nat i.
Proof.
  intros Hi. unfold PatternSync.seq_index.
  by destruct (Z.ltb_spec i 0); [lia|].
Qed.

Lemma seq_index_below {A} (l : list A) (i : Z) :
  (i < - Z.of_nat (length l))%Z -> PatternSync.seq_index l i = None.
Proof.
  intros Hi. unfold PatternSync.seq_index.
  destruct (Z.ltb_spec i 0); [|lia].
  by destruct (Z.leb_spec 0 (i + Z.of_nat (length l))); [lia|].
Qed.

(** Looking a pattern up by a number, when the stored patterns are a list of
    length [n]: an id from 0 to [n - 1] answers with the pattern at that
    position; an id of [n] or more is the 404; and an id below [-n] is a
    500, the subscript being out of range. *)
Theorem get_pattern_by_index (patterns_file : option pyval) (pattern_id : pystr)
    (l : list pyval) (i : Z) :
  PatternSync.load_patterns patterns_file = PList l ->
  int_of_str pattern_id = Some i ->
  ((0 <= i < Z.of_nat (length l))%Z ->
   exists p, l !! Z.to_nat i = Some p
     /\ PatternSync.get_pattern patterns_file pattern_id = PatternSync.PatternFound p)
  /\ ((Z.of_nat (length l) <= i)%Z ->
      PatternSync.get_pattern patterns_file pattern_id = PatternSync.PatternNotFound)
  /\ ((i < - Z.of_nat (length l))%Z ->
      PatternSync.get_pattern patterns_file pattern_id = PatternSync.PatternError).
Proof.
  intros Hl Hi. unfold PatternSync.get_pattern. rewrite Hl, Hi.
  cbn [PatternSync.py_len PatternSync.py_getitem].
  split; [|split].
  - intros [H0 Hlt]. destruct (Z.ltb_spec i (Z.of_nat (length l))); [|lia].
    rewrite seq_index_nonneg by done.
    destruct (lookup_lt_is_Some_2 l (Z.to_nat i)) as [p Hp]; [lia|].
    exists p. by rewrite Hp.
  - intros Hge. by destruct (Z.ltb_spec i (Z.of_nat (length l))); [lia|].
  - intros Hlow. destruct (Z.ltb_spec i (Z.of_nat (length l))); [|lia].
    by rewrite seq_index_below.
Qed.

End PatternLookup.

Lemma upload_then_download_witness :
  (PatternStore.upload_patterns (u"t0") PatternStore.empty_store
     (PDict example_upload)).1
  = PatternStore.UploadOk 2 (PStr (u"2.1.0"))
  /\ PatternStore.get_all_patterns
       (PatternStore.upload_patterns (u"t0") PatternStore.empty_store
          (PDict example_upload)).2
     = PatternStore.ListOk 2
         (PList [PDict [(u"name", PStr (u"derby")); (u"status", PStr (u"miss"))];
                 PDict [(u"name", PStr (u"late goal"));
                        (u"status", PStr (u"success"))]]).
Proof.
  destruct (upload_then_download (u"t0") (u"t1") PatternStore.empty_store
              example_upload
              (PList [PDict [(u"name", PStr (u"derby")); (u"status", PStr (u"miss"))];
                      PDict [(u"name", PStr (u"late goal"));
                             (u"status", PStr (u"success"))]]) 2)
    as (Hup & _ & Hall).
  - vm_compute. reflexivity.
  - vm_compute. reflexivity.
  - reflexivity.
  - split; [rewrite Hup; vm_compute; reflexivity|exact Hall].
Defined.

Lemma upload_refused_keeps_files_witness :
  PatternStore.upload_patterns (u"t0") PatternStore.empty_store
    (PDict [(u"version", PStr (u"2.1.0"))])
  = (PatternStore.UploadBadRequest, PatternStore.empty_store).
Proof.
  destruct (upload_refused_keeps_files (u"t0") PatternStore.empty_store
              (PDict [(u"version", PStr (u"2.1.0"))])) as (Hiff & Hkeep & _).
  assert ((PatternStore.upload_patterns (u"t0") PatternStore.empty_store
             (PDict [(u"version", PStr (u"2.1.0"))])).1
          = PatternStore.UploadBadRequest) as Hbad.
  { apply Hiff. right. vm_compute. reflexivity. }
  apply injective_projections; [exact Hbad|exact (Hkeep Hbad)].
Defined.

Lemma upload_stores_before_validating_witness :
  (PatternStore.upload_patterns (u"t0") PatternStore.empty_store
     (PDict example_bad_upload)).1 = PatternStore.UploadError
  /\ PatternStore.get_all_patterns
       (PatternStore.upload_patterns (u"t0") PatternStore.empty_store
          (PDict example_bad_upload)).2 = PatternStore.ListError
  /\ @PatternSync.get_pattern example_runtime
       (PatternStore.patterns_file
          (PatternStore.upload_patterns (u"t0") PatternStore.empty_store
             (PDict example_bad_upload)).2) (u"0")
     = PatternSync.PatternError.
Proof.
  destruct (@upload_stores_before_validating example_runtime (u"t0")
              PatternStore.empty_store example_bad_upload (PInt 5))
    as (Hup & _ & Hall & _ & Hget).
  - vm_compute. reflexivity.
  - reflexivity.
  - split; [exact Hup|]. split; [exact Hall|apply Hget].
Defined.

Lemma get_status_counts_witness :
  exists c,
    PatternStore.get_status (u"t1")
      (PatternStore.upload_patterns (u"t0") PatternStore.empty_store
         (PDict example_upload)).2 = Some c
    /\ PatternStore.sc_success_count c + PatternStore.sc_miss_count c
       <= PatternStore.sc_patterns_count c.
Proof.
  destruct (get_status_counts (u"t1")
              (PatternStore.upload_patterns (u"t0") PatternStore.empty_store
                 (PDict example_upload)).2) as [Hle _].
  eexists. split; [vm_compute; reflexivity|]. apply Hle.
  vm_compute. reflexivity.
Defined.

Lemma get_pattern_by_index_witness :
  (exists p, @PatternSync.get_pattern example_runtime None (u"9")
             = PatternSync.PatternFound p)
  /\ @PatternSync.get_pattern example_runtime None (u"10")
     = PatternSync.PatternNotFound
  /\ @PatternSync.get_pattern example_runtime None (u"-11")
     = PatternSync.PatternError.
Proof.
  split; [|split].
  - destruct (@get_pattern_by_index example_runtime None (u"9") _ 9%Z
                eq_refl eq_refl) as (Hin & _ & _).
    destruct Hin as (p & _ & Hp); [simpl; lia|]. by exists p.
  - destruct (@get_pattern_by_index example_runtime None (u"10") _ 10%Z
                eq_refl eq_refl) as (_ & Hge & _).
    apply Hge. simpl. lia.
  - destruct (@get_pattern_by_index example_runtime None (u"-11") _ (-11)%Z
                eq_refl eq_refl) as (_ & _ & Hlow).
    apply Hlow. simpl. lia.
Defined.

(* ===================================================================== *)
(** * Digit labels                                                        *)
(* ===================================================================== *)

(** The digits mean different classes as strings and as integers: the
    string [1] (however padded) is a home win, class 0, while the integer 1
    is a draw, class 1; the string [0] is a draw, class 1, while the integer
    0 is a home win, class 0; only 2 is away either way. *)
Theorem digit_strings_differ_from_integers `{PyRuntime} (s : pystr) :
  (str_lower (str_strip s) = u"1" ->
   parse_label (PStr s) = inl 0%Z /\ parse_label (PInt 1) = inl 1%Z)
  /\ (str_lower (str_strip s) = u"0" ->
      parse_label (PStr s) = inl 1%Z /\ parse_label (PInt 0) = inl 0%Z)
  /\ (str_lower (str_strip s) = u"2" ->
      parse_label (PStr s) = inl 2%Z /\ parse_label (PInt 2) = inl 2%Z).
Proof.
  split; [|split]; intros Hs; (split; [|by vm_compute]).
  - apply (parse_label_synonym s (u"1") 0 ltac:(vm_compute; set_solver) Hs).
  - apply (parse_label_synonym s (u"0") 1 ltac:(vm_compute; set_solver) Hs).
  - apply (parse_label_synonym s (u"2") 2 ltac:(vm_compute; set_solver) Hs).
Qed.

Lemma digit_strings_differ_from_integers_witness :
  @parse_label example_runtime (PStr (u" 1 ")) = inl 0%Z
  /\ @parse_label example_runtime (PInt 1) = inl 1%Z.
Proof.
  destruct (@digit_strings_differ_from_integers example_runtime (u" 1 "))
    as (Hone & _ & _).
  apply Hone. vm_compute. reflexivity.
Defined.
